(** * word-sage: the WikiCrawler of word-sage-viewer-2.2.py

    A shallow embedding of the crawler class ([safe_folder_name],
    [clean_html], [save_page], [crawl_page]) and the properties its
    specification states about it.

    - Python strings are sequences of Unicode code points and are modelled
      as lists of code points ([list N]).
    - The network ([requests.get]), the HTML parser
      ([BeautifulSoup(html, "html.parser")]) and [urllib.parse.urljoin] are
      external: they are variables of the section that defines the crawler.
      The network may answer the same URL differently at each request.
    - [os.path] is the POSIX one.  The file system accepts every
      [makedirs] and every write.
    - Effects (the visited set, requests, directories, files, log lines) are
      threaded through an explicit crawler state; the lock around the
      visited set is one atomic step of that state.
    - [crawl_page] need not terminate; its model takes a bound on the
      nesting of calls and returns [None] when the bound is reached.
    - Of the viewer application ([WikiApp]) the operations behind the
      widgets are modelled ([search], [load_page], [update_stats],
      [toggle_dark], [toggle_auto_archive], [run_auto_archive]); a widget is
      the value it shows, and the auto-archive thread is a run between two
      events of the user interface. *)

From Stdlib Require Import NArith ZArith List String Ascii Decimal DecimalNat Lia Bool.
From stdpp Require Import base decidable list gmap sets.

Import ListNotations.
Local Open Scope N_scope.

(** ** Python strings *)

Module PyStr.

Abbreviation pychar := N (only parsing).
Abbreviation pystr := (list N) (only parsing).

Fixpoint of_string (s : string) : pystr :=
  match s with
  | EmptyString => []
  | String a s' => N_of_ascii a :: of_string s'
  end.

(** [s.startswith(p)] *)
Fixpoint startswith (p s : pystr) : bool :=
  match p, s with
  | [], _ => true
  | _ :: _, [] => false
  | a :: p', b :: s' => N.eqb a b && startswith p' s'
  end.

(** [c in s] for a one-character string [c] *)
Fixpoint contains (c : pychar) (s : pystr) : bool :=
  match s with
  | [] => false
  | b :: s' => N.eqb c b || contains c s'
  end.

(** [s.split(c)[0]]: the part of [s] before the first [c] *)
Fixpoint split_head (c : pychar) (s : pystr) : pystr :=
  match s with
  | [] => []
  | b :: s' => if N.eqb c b then [] else b :: split_head c s'
  end.

(** [s.split(c)[-1]]: the part of [s] after the last [c] *)
Fixpoint split_last_aux (c : pychar) (s acc : pystr) : pystr :=
  match s with
  | [] => acc
  | b :: s' => if N.eqb c b then split_last_aux c s' s' else split_last_aux c s' acc
  end.

Definition split_last (c : pychar) (s : pystr) : pystr := split_last_aux c s s.

(** [s.rfind(c)], with Python's -1 for "not found" *)
Fixpoint rfind_aux (c : pychar) (s : pystr) (i : Z) (found : Z) : Z :=
  match s with
  | [] => found
  | b :: s' => rfind_aux c s' (i + 1)%Z (if N.eqb c b then i else found)
  end.

Definition rfind (c : pychar) (s : pystr) : Z := rfind_aux c s 0%Z (-1)%Z.

(** [s[i:]] and [s[:i]] for [0 <= i] *)
Definition slice_from (i : Z) (s : pystr) : pystr := drop (Z.to_nat i) s.
Definition slice_to (i : Z) (s : pystr) : pystr := take (Z.to_nat i) s.

(** [str(i)] for a non-negative integer *)
Fixpoint digits (u : Decimal.uint) : pystr :=
  match u with
  | Nil => []
  | D0 u' => 48 :: digits u'
  | D1 u' => 49 :: digits u'
  | D2 u' => 50 :: digits u'
  | D3 u' => 51 :: digits u'
  | D4 u' => 52 :: digits u'
  | D5 u' => 53 :: digits u'
  | D6 u' => 54 :: digits u'
  | D7 u' => 55 :: digits u'
  | D8 u' => 56 :: digits u'
  | D9 u' => 57 :: digits u'
  end.

Definition str_of_nat (i : nat) : pystr := digits (Nat.to_uint i).

End PyStr.

Import PyStr.

Notation "'py' s" := (of_string s%string) (at level 5, s at level 0, only parsing).

(** ** Unicode classification: [str.isalnum]

    [c.isalnum()] is decided by the interpreter's Unicode database.  For the
    ASCII and Latin-1 blocks the table is written out; for code points from
    U+0100 on it is the parameter [unicode_isalnum]. *)

Definition latin1_isalnum (c : N) : bool :=
  ((48 <=? c) && (c <=? 57)) || ((65 <=? c) && (c <=? 90)) ||
  ((97 <=? c) && (c <=? 122)) ||
  (c =? 170) || (c =? 178) || (c =? 179) || (c =? 181) || (c =? 185) ||
  (c =? 186) || (c =? 188) || (c =? 189) || (c =? 190) ||
  ((192 <=? c) && (c <=? 214)) || ((216 <=? c) && (c <=? 246)) ||
  ((248 <=? c) && (c <=? 255)).

Definition isalnum (unicode_isalnum : N -> bool) (c : N) : bool :=
  if c <? 256 then latin1_isalnum c else unicode_isalnum c.

(** ** Module constants *)

Definition BASE_ARCHIVE : list N := py"wiki_archive".
Definition USER_AGENT : list N := py"WordSageBot/1.0".
Definition SUBLINK_LIMIT : nat := 5.
Definition IMAGE_LIMIT : nat := 5.

(** ** [WikiCrawler.safe_folder_name]

    ["".join(c if c.isalnum() or c in "_-" else "_" for c in title)] *)

Definition safe_char (unicode_isalnum : N -> bool) (c : N) : N :=
  if isalnum unicode_isalnum c || contains c (py"_-") then c else 95.

Definition safe_folder_name (unicode_isalnum : N -> bool) (title : list N) : list N :=
  map (safe_char unicode_isalnum) title.

(** The specification's wording of the same function: every character
    outside [A-Za-z0-9_-] becomes ['_']. *)
Definition in_ascii_class (c : N) : bool :=
  ((65 <=? c) && (c <=? 90)) || ((97 <=? c) && (c <=? 122)) ||
  ((48 <=? c) && (c <=? 57)) || (c =? 95) || (c =? 45).

Definition spec_safe_title (title : list N) : list N :=
  map (fun c => if in_ascii_class c then c else 95) title.

(** ** [os.path] (POSIX flavour)

    [os.path.join(a, b)] and the extension part of [os.path.splitext(p)],
    after CPython's [posixpath.join] and [genericpath._splitext]. *)

Definition endswith_sep (p : list N) : bool :=
  match last p with Some c => c =? 47 | None => false end.

Definition os_path_join (a b : list N) : list N :=
  if startswith (py"/") b then b
  else if (match a with [] => true | _ => false end) || endswith_sep a then a ++ b
  else a ++ py"/" ++ b.

(** [_splitext]: [sepIndex = p.rfind('/')], [dotIndex = p.rfind('.')]; when
    [dotIndex > sepIndex] the loop looks for a character other than ['.']
    in [p[sepIndex+1 : dotIndex]] and then returns [p[dotIndex:]] as the
    extension; in every other case the extension is empty. *)
Definition splitext_ext (p : list N) : list N :=
  let sepIndex := rfind 47 p in
  let dotIndex := rfind 46 p in
  if (sepIndex <? dotIndex)%Z then
    if existsb (fun c => negb (c =? 46))
         (slice_to (dotIndex - (sepIndex + 1)) (slice_from (sepIndex + 1) p))
    then slice_from dotIndex p
    else []
  else [].

(** [ext = os.path.splitext(src)[1].split("?")[0]] (line 71) *)
Definition image_ext (src : list N) : list N := split_head 63 (splitext_ext src).

(** [fname = f"img_{i}{ext}"] (line 72) *)
Definition image_fname (i : nat) (src : list N) : list N :=
  py"img_" ++ str_of_nat i ++ image_ext src.

(** Lines 64-67 of [save_page]: the source URL that is fetched. *)
Definition resolve_src (src : list N) : list N :=
  if startswith (py"//") src then py"https:" ++ src
  else if startswith (py"/") src then py"https://en.wikipedia.org" ++ src
  else src.

(** The specification's reading of the extension: the extension of the
    URL's path, that is of the URL with its query string removed first. *)
Definition spec_path_ext (src : list N) : list N := splitext_ext (split_head 63 src).

(** ** The document tree (BeautifulSoup)

    A [Tag] has a name, the multi-valued [class] attribute as the parser
    stores it (a list), its other attributes (a dict) and its contents.
    Text and comments are leaves.  Every node carries the identity [oid] of
    the Python object, which is what [decompose] and [extract] act on. *)

Local Unset Elimination Schemes.

Inductive node : Type :=
| Tag (oid : nat) (name : list N) (classes : list (list N))
      (attrs : gmap (list N) (list N)) (contents : list node)
| NavigableString (oid : nat) (text : list N)
| Comment (oid : nat) (text : list N).

Local Set Elimination Schemes.

Definition node_oid (n : node) : nat :=
  match n with Tag i _ _ _ _ => i | NavigableString i _ => i | Comment i _ => i end.

(** All nodes below a node, in document order. *)
Fixpoint descendants_of (n : node) : list node :=
  match n with
  | Tag _ _ _ _ cs => flat_map (fun c => c :: descendants_of c) cs
  | _ => []
  end.

Definition descendants (soup : list node) : list node :=
  flat_map (fun c => c :: descendants_of c) soup.

Definition str_eqb (a b : list N) : bool := bool_decide (a = b).

(** The selector list of [clean_html]:
    [.navbox, .metadata, .mw-references-wrap, script, style, .toc, .infobox,
     header, footer, .mw-editsection, .sistersitebox] *)
Definition denied_classes : list (list N) :=
  [py"navbox"; py"metadata"; py"mw-references-wrap"; py"toc"; py"infobox";
   py"mw-editsection"; py"sistersitebox"].

Definition denied_tags : list (list N) :=
  [py"script"; py"style"; py"header"; py"footer"].

Definition matches_denylist (n : node) : bool :=
  match n with
  | Tag _ name classes _ _ =>
      existsb (fun c => existsb (str_eqb c) classes) denied_classes
      || existsb (str_eqb name) denied_tags
  | _ => false
  end.

(** [soup.select(...)]: the matching elements, in document order. *)
Definition select_denylist (soup : list node) : list nat :=
  map node_oid (List.filter matches_denylist (descendants soup)).

(** Detaching the object [o] from the tree ([Tag.decompose], and
    [PageElement.extract] for a string); a no-op when [o] is not in the
    tree any more. *)
Fixpoint detach_in (o : nat) (n : node) : node :=
  match n with
  | Tag i name cl at_ cs =>
      Tag i name cl at_
        (List.filter (fun c => negb (Nat.eqb (node_oid c) o)) (map (detach_in o) cs))
  | _ => n
  end.

Definition detach (o : nat) (soup : list node) : list node :=
  List.filter (fun c => negb (Nat.eqb (node_oid c) o)) (map (detach_in o) soup).

(** Python classes that the comment filter can meet. *)
Inductive pyclass := NoneType | TagClass | NavigableStringClass | CommentClass.

Definition type_of (o : option node) : pyclass :=
  match o with
  | None => NoneType
  | Some (Tag _ _ _ _ _) => TagClass
  | Some (NavigableString _ _) => NavigableStringClass
  | Some (Comment _ _) => CommentClass
  end.

(** [isinstance(n, c)]; [Comment] is a subclass of [NavigableString]. *)
Definition isinstance (n : node) (c : pyclass) : bool :=
  match n, c with
  | Tag _ _ _ _ _, TagClass => true
  | NavigableString _ _, NavigableStringClass => true
  | Comment _ _, NavigableStringClass => true
  | Comment _ _, CommentClass => true
  | _, _ => false
  end.

Definition is_tag_named (name : list N) (n : node) : bool :=
  match n with Tag _ nm _ _ _ => str_eqb nm name | _ => false end.

(** [soup.find(name)]: the first element with that tag name, or [None]. *)
Definition soup_find (name : list N) (soup : list node) : option node :=
  head (List.filter (is_tag_named name) (descendants soup)).

(** [soup.Comment]: [BeautifulSoup] has no attribute of that name, so the
    lookup goes through [Tag.__getattr__], which is [self.find("Comment")]. *)
Definition soup_getattr_Comment (soup : list node) : option node :=
  soup_find (py"Comment") soup.

Definition is_string_node (n : node) : bool :=
  match n with Tag _ _ _ _ _ => false | _ => true end.

(** [soup.find_all(string=f)]: the strings of the tree that [f] accepts. *)
Definition find_all_string (f : node -> bool) (soup : list node) : list nat :=
  map node_oid (List.filter (fun n => is_string_node n && f n) (descendants soup)).

(** [WikiCrawler.clean_html], after parsing. *)
Definition clean_html (soup : list node) : list node :=
  let soup1 := fold_left (fun s o => detach o s) (select_denylist soup) soup in
  let comments :=
    find_all_string (fun text => isinstance text (type_of (soup_getattr_Comment soup1))) soup1 in
  fold_left (fun s o => detach o s) comments soup1.

(** [soup.find_all("a", href=True)], as the list of the [href] values, and
    [soup.find_all("img")], as the list of [img.get("src")]. *)
Definition find_all_a_href (soup : list node) : list (list N) :=
  omap (fun n => match n with
                 | Tag _ nm _ at_ _ => if str_eqb nm (py"a") then at_ !! (py"href") else None
                 | _ => None
                 end) (descendants soup).

Definition find_all_img_src (soup : list node) : list (option (list N)) :=
  omap (fun n => match n with
                 | Tag _ nm _ at_ _ => if str_eqb nm (py"img") then Some (at_ !! (py"src")) else None
                 | _ => None
                 end) (descendants soup).

(** ** The crawler's state and its effects *)

(** Exceptions that the modelled calls can raise. *)
Inductive pyexn :=
| ValueError
| RequestException (msg : list N)
| OSError
| RecursionError.

(** What [requests.get] does: a response with a status code and a body, or
    an exception (DNS failure, time-out, connection reset, bad URL, or
    [RecursionError] when the call no longer fits under the interpreter's
    limit on nested calls). *)
Inductive reply :=
| Response (status_code : Z) (body : list N)
| Raises (e : pyexn).

Inductive log_msg :=
| SkipVisited (url : list N)
| Crawling (url : list N)
| FetchFailed (url : list N) (status : Z)
| SavedHtml (title : list N)
| DownloadedImage (fname title : list N)
| ImageFailed (src : list N) (e : pyexn)
| CrawlError (url : list N) (e : pyexn).

Inductive file_data :=
| HtmlOf (soup : list node)
| BytesOf (content : list N).

Inductive event :=
| HttpGet (url user_agent : list N)
| Makedirs (path : list N)
| WriteFile (path : list N) (data : file_data)
| Log (m : log_msg).

(** A [WikiCrawler] object together with the world it acts on: [visited]
    is [self.visited]; [requests] counts the requests sent so far; [trace]
    lists the effects performed, the most recent first. *)
Record crawler := Crawler {
  base_dir : list N;
  visited : gset (list N);
  requests : nat;
  trace : list event
}.

Definition emit (e : event) (st : crawler) : crawler :=
  Crawler (base_dir st) (visited st) (requests st) (e :: trace st).

Definition log (m : log_msg) (st : crawler) : crawler := emit (Log m) st.

Definition add_visited (url : list N) (st : crawler) : crawler :=
  Crawler (base_dir st) ({[url]} ∪ visited st) (requests st) (trace st).

(** [WikiCrawler(base_dir)] *)
Definition new_crawler (dir : list N) : crawler :=
  Crawler dir ∅ 0 [Makedirs dir].

(** What a call of [crawl_page] does: it returns a folder or [None], or
    an exception leaves it. *)
Inductive outcome :=
| Returns (folder : option (list N))
| Raised (e : pyexn).

Definition is_http_get (e : event) : bool :=
  match e with HttpGet _ _ => true | _ => false end.

Definition is_image_write (e : event) : bool :=
  match e with WriteFile _ (BytesOf _) => true | _ => false end.

(** [href.startswith("/wiki/") and ":" not in href] (line 103) *)
Definition crawlable (href : list N) : bool :=
  startswith (py"/wiki/") href && negb (contains 58 href).

Section Crawler.

(** The Unicode table behind [str.isalnum] above Latin-1. *)
Variable unicode_isalnum : N -> bool.

(** The network: the reply to the [n]-th request of the run, for a URL. *)
Variable net : nat -> list N -> reply.

(** [BeautifulSoup(html, "html.parser")] *)
Variable html_parser : list N -> list node.

(** [urllib.parse.urljoin(base, url)]; [None] when it raises [ValueError]. *)
Variable urljoin : list N -> list N -> option (list N).

(** The file system: whether, after the effects so far, it carries out
    the given [os.makedirs] or the given opening and writing of a file.
    When it does not (a name over the file-name limit, no permission, a
    full disk), the call raises [OSError]. *)
Variable os_accepts : list event -> event -> bool.

(** [requests.get(url, headers={"User-Agent": USER_AGENT})] *)
Definition requests_get (url : list N) (st : crawler) : reply * crawler :=
  (net (requests st) url,
   Crawler (base_dir st) (visited st) (S (requests st))
     (HttpGet url USER_AGENT :: trace st)).

(** The image loop of [save_page] (lines 58-78): [i] is the index of
    [enumerate], [img_count] the running count of downloads.  An
    exception of the request or of the writing of the file is caught and
    logged (lines 77-78). *)
Fixpoint save_images (title img_folder : list N) (images : list (option (list N)))
    (i img_count : nat) (st : crawler) : crawler :=
  match images with
  | [] => st
  | img :: rest =>
      if (IMAGE_LIMIT <=? img_count)%nat then st
      else
        match img with
        | None | Some [] => save_images title img_folder rest (S i) img_count st
        | Some src0 =>
            let src := resolve_src src0 in
            let '(r, st1) := requests_get src st in
            match r with
            | Response code content =>
                if (code =? 200)%Z then
                  let fname := image_fname i src in
                  let file := WriteFile (os_path_join img_folder fname) (BytesOf content) in
                  if os_accepts (trace st1) file then
                    let st2 := emit file st1 in
                    let st3 := log (DownloadedImage fname title) st2 in
                    save_images title img_folder rest (S i) (S img_count) st3
                  else
                    save_images title img_folder rest (S i) img_count
                      (log (ImageFailed src OSError) st1)
                else save_images title img_folder rest (S i) img_count st1
            | Raises e =>
                save_images title img_folder rest (S i) img_count (log (ImageFailed src e) st1)
            end
        end
  end.

(** [WikiCrawler.save_page].  The result is the folder returned, or [None]
    when [os.makedirs] (lines 48, 55) or the writing of [page.html]
    (lines 50-51) raises [OSError]: nothing in [save_page] catches it. *)
Definition save_page (title : list N) (soup : list node) (st : crawler)
    : option (list N) * crawler :=
  let folder := os_path_join (base_dir st) (safe_folder_name unicode_isalnum title) in
  if negb (os_accepts (trace st) (Makedirs folder)) then (None, st)
  else
    let st1 := emit (Makedirs folder) st in
    let html_file := os_path_join folder (py"page.html") in
    if negb (os_accepts (trace st1) (WriteFile html_file (HtmlOf soup))) then (None, st1)
    else
      let st2 := emit (WriteFile html_file (HtmlOf soup)) st1 in
      let st3 := log (SavedHtml title) st2 in
      let img_folder := os_path_join folder (py"images") in
      if negb (os_accepts (trace st3) (Makedirs img_folder)) then (None, st3)
      else
        let st4 := emit (Makedirs img_folder) st3 in
        (Some folder, save_images title img_folder (find_all_img_src soup) 0 0 st4).

(** The sublink loop of [crawl_page] (lines 99-107).  [crawl] is the
    recursive call.  The result is [None] when the recursion does not come
    back; otherwise the exception that left the loop, if any. *)
Fixpoint crawl_links (crawl : list N -> nat -> crawler -> option (outcome * crawler))
    (links : list (list N)) (count depth : nat) (st : crawler)
    : option (option pyexn * crawler) :=
  match links with
  | [] => Some (None, st)
  | href :: rest =>
      if crawlable href then
        if (SUBLINK_LIMIT <=? count)%nat then Some (None, st)
        else
          match crawl href (depth + 1)%nat st with
          | None => None
          | Some (Raised e, st') => Some (Some e, st')
          | Some (Returns _, st') => crawl_links crawl rest (S count) depth st'
          end
      else crawl_links crawl rest count depth st
  end.

(** [WikiCrawler.crawl_page].  The recursion of the source need not end (the
    web may be an endless chain of pages): [fuel] bounds the nesting of
    calls, and the result is [None] when that bound is reached.  The
    [except] of line 109 catches what [requests.get], [save_page] and the
    nested calls raise. *)
Fixpoint crawl_page (fuel : nat) (url0 : list N) (depth : nat) (st : crawler)
    : option (outcome * crawler) :=
  match fuel with
  | O => None
  | S fuel' =>
      match urljoin (py"https://en.wikipedia.org/") url0 with
      | None => Some (Raised ValueError, st)
      | Some url =>
          if bool_decide (url ∈ visited st) then
            Some (Returns None, log (SkipVisited url) st)
          else
            let st0 := add_visited url st in
            let st1 := log (Crawling url) st0 in
            let '(r, st2) := requests_get url st1 in
            match r with
            | Raises e => Some (Returns None, log (CrawlError url e) st2)
            | Response code text =>
                if negb (code =? 200)%Z then
                  Some (Returns None, log (FetchFailed url code) st2)
                else
                  let soup := clean_html (html_parser text) in
                  let title := split_last 47 url in
                  let '(saved, st3) := save_page title soup st2 in
                  match saved with
                  | None => Some (Returns None, log (CrawlError url OSError) st3)
                  | Some folder =>
                      match crawl_links (crawl_page fuel') (find_all_a_href soup) 0 depth st3 with
                      | None => None
                      | Some (Some e, st4) => Some (Returns None, log (CrawlError url e) st4)
                      | Some (None, st4) => Some (Returns (Some folder), st4)
                      end
                  end
            end
      end
  end.

End Crawler.

(** ** Definitions used in the statements *)

(** The characters that [safe_folder_name] keeps. *)
Definition kept_char (unicode_isalnum : N -> bool) (c : N) : bool :=
  in_ascii_class c || ((128 <=? c) && isalnum unicode_isalnum c).

Definition is_digit (c : N) : bool := (48 <=? c) && (c <=? 57).

Definition starts_with_digit (s : list N) : bool :=
  match s with c :: _ => is_digit c | [] => false end.

(** The specification's wording of the sublink loop: the recursive call is
    made on each target in turn. *)
Fixpoint crawl_each (crawl : list N -> nat -> crawler -> option (outcome * crawler))
    (targets : list (list N)) (depth : nat) (st : crawler)
    : option (option pyexn * crawler) :=
  match targets with
  | [] => Some (None, st)
  | href :: rest =>
      match crawl href (depth + 1)%nat st with
      | None => None
      | Some (Raised e, st') => Some (Some e, st')
      | Some (Returns _, st') => crawl_each crawl rest depth st'
      end
  end.

(** [st'] is [st] after some more effects: the visited set has grown, and
    events have been added to the trace. *)
Definition extends (st st' : crawler) : Prop :=
  visited st ⊆ visited st' /\
  base_dir st' = base_dir st /\
  (requests st <= requests st')%nat /\
  exists evs, trace st' = evs ++ trace st.

(** The reply is a failure: an exception, or a status other than 200. *)
Definition is_failure (r : reply) : bool :=
  match r with
  | Response code _ => negb (code =? 200)%Z
  | Raises _ => true
  end.

(** The line that [crawl_page] logs for a failed fetch. *)
Definition failure_log (url : list N) (r : reply) : log_msg :=
  match r with
  | Response code _ => FetchFailed url code
  | Raises e => CrawlError url e
  end.

(** What [select] looks at in a node, with its identity. *)
Definition head_of (n : node) : nat * bool := (node_oid n, matches_denylist n).

Definition heads (soup : list node) : list (nat * bool) := map head_of (descendants soup).

(** Induction on document trees, with the hypothesis for all children. *)
Section NodeInduction.

Variable P : node -> Prop.
Hypothesis P_tag : forall i name cl at_ cs, Forall P cs -> P (Tag i name cl at_ cs).
Hypothesis P_string : forall i s, P (NavigableString i s).
Hypothesis P_comment : forall i s, P (Comment i s).

Fixpoint node_ind (n : node) : P n :=
  match n with
  | Tag i name cl at_ cs =>
      P_tag i name cl at_ cs
        ((fix all (l : list node) : Forall P l :=
            match l with
            | [] => @List.Forall_nil node P
            | c :: l' => @List.Forall_cons node P c l' (node_ind c) (all l')
            end) cs)
  | NavigableString i s => P_string i s
  | Comment i s => P_comment i s
  end.

End NodeInduction.

(** ** A small web for the examples *)

(** [p in s] for a string [p] *)
Fixpoint has_infix (p s : list N) : bool :=
  match s with
  | [] => startswith p []
  | _ :: s' => startswith p s || has_infix p s'
  end.

(** The network: every URL is answered with status 200 and the URL itself
    as body, except those containing ["missing"] (404) and those containing
    ["down"] (connection error). *)
Definition demo_net (n : nat) (url : list N) : reply :=
  if has_infix (py"down") url then Raises (RequestException (py"connection reset"))
  else if has_infix (py"missing") url then Response 404 (py"not found")
  else Response 200 url.

(** A stand-in for [urljoin]: a path is put under the base origin, any
    other URL is kept; an unclosed bracketed host raises. *)
Definition demo_urljoin (base url : list N) : option (list N) :=
  if has_infix (py"//[") url then None
  else if startswith (py"/") url then Some (py"https://en.wikipedia.org" ++ url)
  else Some url.

Definition a_tag (i : nat) (href : list N) : node :=
  Tag i (py"a") [] {[ py"href" := href ]} [].

(** The seed page: eight article links and two links that do not qualify. *)
Definition seed_page : list node :=
  [Tag 1 (py"div") [py"content"] ∅
     [a_tag 2 (py"/wiki/A"); a_tag 3 (py"https://example.org/x"); a_tag 4 (py"/wiki/B");
      a_tag 5 (py"/wiki/Help:Contents"); a_tag 6 (py"/wiki/C"); a_tag 7 (py"/wiki/D");
      a_tag 8 (py"/wiki/E"); a_tag 9 (py"/wiki/F"); a_tag 10 (py"/wiki/G");
      a_tag 11 (py"/wiki/H")]].

(** A page with two article links inside a navigation box and one outside. *)
Definition nav_page : list node :=
  [Tag 1 (py"div") [py"navbox"] ∅ [a_tag 2 (py"/wiki/N1"); a_tag 3 (py"/wiki/N2")];
   Tag 4 (py"p") [] ∅ [a_tag 5 (py"/wiki/A")]].

(** Only the seed and the page with the navigation box have links; every
    other page is empty. *)
Definition demo_parser (text : list N) : list node :=
  if str_eqb text (py"https://en.wikipedia.org/wiki/Seed") then seed_page
  else if str_eqb text (py"https://en.wikipedia.org/wiki/Nav") then nav_page
  else [].

(** The longest name between two ['/'] of a path ([cur] characters of the
    current name have been read). *)
Fixpoint longest_name (path : list N) (cur : nat) : nat :=
  match path with
  | [] => cur
  | c :: rest =>
      if c =? 47 then Nat.max cur (longest_name rest 0) else longest_name rest (S cur)
  end.

(** A file system with the usual limit on names: it refuses a path that has
    a name of more than 255 characters. *)
Definition demo_os (history : list event) (e : event) : bool :=
  match e with
  | Makedirs path | WriteFile path _ => (longest_name path 0 <=? 255)%nat
  | _ => true
  end.

Definition demo_crawl :=
  crawl_page (fun _ => false) demo_net demo_parser demo_urljoin demo_os.

(** The URLs requested and the files written, in the order of the run. *)
Definition fetched (st : crawler) : list (list N) :=
  omap (fun e => match e with HttpGet url _ => Some url | _ => None end) (rev (trace st)).

Definition written (st : crawler) : list (list N) :=
  omap (fun e => match e with WriteFile path _ => Some path | _ => None end) (rev (trace st)).

(** The crawler after the seed scenario. *)
Definition seed_run_state : crawler :=
  Eval vm_compute in
    match demo_crawl 2 (py"/wiki/Seed") 0 (new_crawler BASE_ARCHIVE) with
    | Some (_, st) => st
    | None => new_crawler []
    end.

(** A page with boilerplate inside boilerplate. *)
Definition demo_nested : list node :=
  [Tag 1 (py"div") [py"navbox"] ∅
     [Tag 2 (py"footer") [] ∅ [NavigableString 3 (py"x")];
      Tag 4 (py"span") [py"mw-editsection"] ∅ []];
   Tag 5 (py"p") [py"lead"] ∅ [NavigableString 6 (py"text"); Tag 7 (py"script") [] ∅ []]].

(** An endless chain of pages with the same short title ["a"]: the page
    at [.../wiki/w/a] has one link, to [/wiki/xw/a]. *)
Definition chain_parser (text : list N) : list node :=
  [a_tag 0 (py"/wiki/x" ++ drop 30 text)].

(** The chain under an interpreter that has room for [limit] requests,
    one inside the other: the later ones raise [RecursionError]. *)
Definition chain_net (limit n : nat) (url : list N) : reply :=
  if (n <? limit)%nat then Response 200 url else Raises RecursionError.

Definition chain_crawl (limit : nat) :=
  crawl_page (fun _ => false) (chain_net limit) chain_parser demo_urljoin demo_os.

(** The first page of the chain, and a URL whose title is over the limit
    on file names. *)
Definition chain_start : list N := py"/wiki/x/a".

Definition long_title_url : list N := py"/wiki/" ++ repeat 120 256.

(** ** Definitions used in the further properties *)

(** The paths of the image files among some events, and the URLs of the
    "Crawling page" log lines, most recent first. *)
Definition image_paths (evs : list event) : list (list N) :=
  omap (fun e => match e with WriteFile p (BytesOf _) => Some p | _ => None end) evs.

Definition crawled (evs : list event) : list (list N) :=
  omap (fun e => match e with Log (Crawling u) => Some u | _ => None end) evs.

(** The events that the image loop of [save_page] can add, for the images
    of a page and its image folder. *)
Definition image_event (img_folder : list N) (images : list (option (list N)))
    (e : event) : Prop :=
  match e with
  | HttpGet u ua =>
      ua = USER_AGENT /\
      exists src, In (Some src) images /\ src <> [] /\ u = resolve_src src
  | WriteFile p (BytesOf _) =>
      exists j src, In (Some src) images /\
        p = os_path_join img_folder (image_fname j (resolve_src src))
  | Log (DownloadedImage _ _) | Log (ImageFailed _ _) => True
  | _ => False
  end.

(** The archive layout: requests carry the fixed user agent, a document is
    written to a file named [page.html], an image to a file named
    [img_...]. *)
Definition archive_event (e : event) : Prop :=
  match e with
  | HttpGet _ ua => ua = USER_AGENT
  | WriteFile p (HtmlOf _) => split_last 47 p = py"page.html"
  | WriteFile p (BytesOf _) => startswith (py"img_") (split_last 47 p) = true
  | _ => True
  end.

(** No page is crawled twice, and every crawled page is in the visited set. *)
Definition crawled_once (st : crawler) : Prop :=
  NoDup (crawled (trace st)) /\ forall u, In u (crawled (trace st)) -> u ∈ visited st.

(** The number of pages within [n] levels of a fan-out of [SUBLINK_LIMIT]. *)
Fixpoint page_budget (n : nat) : nat :=
  match n with
  | O => O
  | S n' => S (SUBLINK_LIMIT * page_budget n')
  end.

(** ** The viewer application ([WikiApp])

    The widgets are kept as the values they show.  What the application
    reads from outside (the archive directory, the files of a page, the
    image library, [str.lower]) is an [outside] record passed to each
    operation, so that it may differ from one operation to the next. *)

Record outside := Outside {
  str_lower : list N -> list N;                 (* s.lower() *)
  os_listdir : list N -> option (list (list N));(* os.listdir(d); None: it raises *)
  os_path_isdir : list N -> bool;               (* os.path.isdir(p) *)
  os_path_exists : list N -> bool;              (* os.path.exists(p) *)
  read_file : list N -> option (list N);        (* open(p, "r").read(); None: it raises *)
  html_get_text : list N -> list N;             (* BeautifulSoup(c, "html.parser").get_text("\n") *)
  image_opens : list N -> bool                  (* Image.open, thumbnail, PhotoImage succeed *)
}.

(** Lines that the application prints through [log]. *)
Inductive app_log :=
| DarkModeSet (b : bool)
| AutoArchiveStarted
| SearchReturned (query : list N) (n : nat)
| LoadingPage (folder mode : list N)
| PageNotFound (html_file : list N)
| AutoArchivePaused
| AutoArchiveFinished.

(** An image label of the viewer, and a row of the search results with
    its buttons (the text of a button and the mode it passes on). *)
Record label := Label { label_image : list N; label_bg : option (list N) }.

Record row := Row {
  row_text : list N;
  row_folder : list N;
  row_buttons : list (list N * list N)
}.

Record stats := Stats {
  pages_archived : nat;
  current_page : list N;
  images_downloaded : nat;
  stats_label : list N
}.

Record viewer := Viewer {
  text_widget : list N;
  text_colors : option (list N * list N);
  image_labels : list label
}.

Record wikiapp := App {
  app_crawler : crawler;      (* self.crawler, with the effects of its calls *)
  auto_archive : bool;
  dark_mode : bool;
  archive_thread : bool;      (* self.archive_thread is not None *)
  theme : list N;
  app_stats : stats;
  app_viewer : viewer;
  result_frame : list row;
  progress_value : nat;
  console : list app_log      (* most recent first *)
}.

Definition with_crawler (c : crawler) (a : wikiapp) : wikiapp :=
  App c (auto_archive a) (dark_mode a) (archive_thread a) (theme a) (app_stats a)
    (app_viewer a) (result_frame a) (progress_value a) (console a).

Definition with_stats (s : stats) (a : wikiapp) : wikiapp :=
  App (app_crawler a) (auto_archive a) (dark_mode a) (archive_thread a) (theme a) s
    (app_viewer a) (result_frame a) (progress_value a) (console a).

Definition with_viewer (v : viewer) (a : wikiapp) : wikiapp :=
  App (app_crawler a) (auto_archive a) (dark_mode a) (archive_thread a) (theme a)
    (app_stats a) v (result_frame a) (progress_value a) (console a).

Definition with_results (r : list row) (a : wikiapp) : wikiapp :=
  App (app_crawler a) (auto_archive a) (dark_mode a) (archive_thread a) (theme a)
    (app_stats a) (app_viewer a) r (progress_value a) (console a).

Definition with_progress (p : nat) (a : wikiapp) : wikiapp :=
  App (app_crawler a) (auto_archive a) (dark_mode a) (archive_thread a) (theme a)
    (app_stats a) (app_viewer a) (result_frame a) p (console a).

Definition with_theme (t : list N) (a : wikiapp) : wikiapp :=
  App (app_crawler a) (auto_archive a) (dark_mode a) (archive_thread a) t
    (app_stats a) (app_viewer a) (result_frame a) (progress_value a) (console a).

Definition app_print (m : app_log) (a : wikiapp) : wikiapp :=
  App (app_crawler a) (auto_archive a) (dark_mode a) (archive_thread a) (theme a)
    (app_stats a) (app_viewer a) (result_frame a) (progress_value a) (m :: console a).

(** [WikiApp.__init__]: a fresh crawler on [BASE_ARCHIVE], nothing shown. *)
Definition new_app : wikiapp :=
  App (new_crawler BASE_ARCHIVE) false false false (py"sandstone")
    (Stats 0 [] 0 (py"Pages: 0 | Current: None | Images: 0"))
    (Viewer [] None []) [] 0 [].

(** [s.endswith(suffix)] and [s.endswith((suffix, ...))] *)
Definition endswith (suffix s : list N) : bool := startswith (rev suffix) (rev s).

Definition endswith_any (suffixes : list (list N)) (s : list N) : bool :=
  existsb (fun suffix => endswith suffix s) suffixes.

(** [WikiApp.update_viewer_colors] *)
Definition update_viewer_colors (a : wikiapp) : wikiapp :=
  let bg := if dark_mode a then py"#222" else py"#fff" in
  let fg := if dark_mode a then py"#eee" else py"#000" in
  with_viewer
    (Viewer (text_widget (app_viewer a)) (Some (bg, fg))
       (map (fun lbl => Label (label_image lbl) (Some bg)) (image_labels (app_viewer a)))) a.

(** [WikiApp.toggle_dark] *)
Definition toggle_dark (a : wikiapp) : wikiapp :=
  let a1 := with_theme (if dark_mode a then py"darkly" else py"sandstone") a in
  let a2 := update_viewer_colors a1 in
  app_print (DarkModeSet (dark_mode a)) a2.

(** [WikiApp.toggle_auto_archive]; the thread it starts runs
    [run_auto_archive] beside the user interface. *)
Definition toggle_auto_archive (a : wikiapp) : wikiapp :=
  if auto_archive a && negb (archive_thread a) then
    app_print AutoArchiveStarted
      (App (app_crawler a) (auto_archive a) (dark_mode a) true (theme a) (app_stats a)
         (app_viewer a) (result_frame a) (progress_value a) (console a))
  else a.

(** [WikiApp.update_stats] *)
Definition update_stats (page : list N) (images : nat) (a : wikiapp) : wikiapp :=
  let n := S (pages_archived (app_stats a)) in
  let k := (images_downloaded (app_stats a) + images)%nat in
  with_stats
    (Stats n page k
       (py"Pages: " ++ str_of_nat n ++ py" | Current: " ++ page ++ py" | Images: "
          ++ str_of_nat k)) a.

(** The three buttons of a result row (lines 203-208). *)
Definition row_buttons_of_search : list (list N * list N) :=
  [(py"Default", py"default"); (py"*text", py"text"); (py"*image", py"image")].

(** [WikiApp.search]; [typed] is [self.search_var.get()].  The second
    component tells whether the call ended normally. *)
Definition search (w : outside) (typed : list N) (a : wikiapp) : wikiapp * bool :=
  let a1 := with_results [] a in
  let query := str_lower w typed in
  match os_listdir w BASE_ARCHIVE with
  | None => (a1, false)
  | Some names =>
      let results :=
        map (os_path_join BASE_ARCHIVE)
          (List.filter
             (fun folder => os_path_isdir w (os_path_join BASE_ARCHIVE folder)
                            && has_infix query (str_lower w folder))
             names) in
      let a2 := app_print (SearchReturned query (length results)) a1 in
      (with_results
         (map (fun folder => Row (split_last 47 folder) folder row_buttons_of_search) results)
         a2,
       true)
  end.

(** The image loop of [load_page] (lines 248-259). *)
Definition load_images (w : outside) (img_dir : list N) (names : list (list N)) : list label :=
  map (fun fname => Label (os_path_join img_dir fname) None)
    (List.filter
       (fun fname =>
          endswith_any [py".png"; py".jpg"; py".jpeg"; py".gif"] (str_lower w fname)
          && image_opens w (os_path_join img_dir fname))
       names).

(** [WikiApp.load_page] *)
Definition load_page (w : outside) (folder mode : list N) (a : wikiapp) : wikiapp * bool :=
  let a1 := app_print (LoadingPage folder mode) a in
  let a2 := with_viewer (Viewer [] (text_colors (app_viewer a1)) []) a1 in
  let html_file := os_path_join folder (py"page.html") in
  if negb (os_path_exists w html_file) then (app_print (PageNotFound html_file) a2, true)
  else
    match read_file w html_file with
    | None => (a2, false)
    | Some content =>
        let shown : option viewer :=
          if str_eqb mode (py"*text") then
            Some (Viewer (html_get_text w content) (text_colors (app_viewer a2)) [])
          else if str_eqb mode (py"*image") then
            let img_dir := os_path_join folder (py"images") in
            if os_path_exists w img_dir then
              match os_listdir w img_dir with
              | None => None
              | Some names =>
                  Some (Viewer [] (text_colors (app_viewer a2)) (load_images w img_dir names))
              end
            else Some (app_viewer a2)
          else Some (Viewer content (text_colors (app_viewer a2)) []) in
        match shown with
        | None => (a2, false)
        | Some v =>
            let a3 := update_viewer_colors (with_viewer v a2) in
            let a4 := with_progress 100 a3 in
            (update_stats (split_last 47 folder) 0 a4, true)
        end
    end.

(** The pages that auto-archive starts from (line 288). *)
Definition start_pages : list (list N) :=
  [py"/wiki/Mathematics"; py"/wiki/Chemical_substance"; py"/wiki/United_Kingdom"].

Section AutoArchive.

Variable unicode_isalnum : N -> bool.
Variable net : nat -> list N -> reply.
Variable html_parser : list N -> list node.
Variable urljoin : list N -> list N -> option (list N).
Variable os_accepts : list event -> event -> bool.

(** The loop of [run_auto_archive].  The check box is set by the user
    interface while the loop runs in its thread: [reads k] is what the loop
    reads at its [k]-th test.  The result is [None] when a crawl does not
    come back; the flag tells whether the loop ended normally. *)
Fixpoint auto_archive_loop (fuel : nat) (reads : nat -> bool) (k : nat)
    (pages : list (list N)) (a : wikiapp) : option (wikiapp * bool) :=
  match pages with
  | [] => Some (a, true)
  | page :: rest =>
      if negb (reads k) then Some (app_print AutoArchivePaused a, true)
      else
        match crawl_page unicode_isalnum net html_parser urljoin os_accepts fuel page 0
                (app_crawler a) with
        | None => None
        | Some (Raised _, c) => Some (with_crawler c a, false)
        | Some (Returns folder, c) =>
            let a1 := with_crawler c a in
            let a2 :=
              match folder with
              | Some ((_ :: _) as f) => with_progress 100 (update_stats (split_last 47 f) 0 a1)
              | _ => a1
              end in
            auto_archive_loop fuel reads (S k) rest a2
        end
  end.

(** [WikiApp.run_auto_archive] *)
Definition run_auto_archive (fuel : nat) (reads : nat -> bool) (a : wikiapp) : option (wikiapp * bool) :=
  match auto_archive_loop fuel reads 0 start_pages a with
  | None => None
  | Some (a', true) => Some (app_print AutoArchiveFinished a', true)
  | Some (a', false) => Some (a', false)
  end.

(** What happens in the application: a click on one of the two check
    boxes (the variable flips, then the command runs), a search, a click on
    a button of a result row, and a run of the auto-archive thread. *)
Inductive gui_event :=
| ClickDarkMode
| ClickAutoArchive
| DoSearch (w : outside) (typed : list N)
| ClickRowButton (w : outside) (folder mode : list N)
| ThreadRuns (fuel : nat) (reads : nat -> bool).

Definition set_dark_mode (b : bool) (a : wikiapp) : wikiapp :=
  App (app_crawler a) (auto_archive a) b (archive_thread a) (theme a) (app_stats a)
    (app_viewer a) (result_frame a) (progress_value a) (console a).

Definition set_auto_archive (b : bool) (a : wikiapp) : wikiapp :=
  App (app_crawler a) b (dark_mode a) (archive_thread a) (theme a) (app_stats a)
    (app_viewer a) (result_frame a) (progress_value a) (console a).

Definition gui_step (e : gui_event) (a : wikiapp) : option wikiapp :=
  match e with
  | ClickDarkMode => Some (toggle_dark (set_dark_mode (negb (dark_mode a)) a))
  | ClickAutoArchive => Some (toggle_auto_archive (set_auto_archive (negb (auto_archive a)) a))
  | DoSearch w typed => Some (search w typed a).1
  | ClickRowButton w folder mode => Some (load_page w folder mode a).1
  | ThreadRuns fuel reads =>
      match run_auto_archive fuel reads a with
      | Some (a', _) => Some a'
      | None => None
      end
  end.

Fixpoint gui_run (events : list gui_event) (a : wikiapp) : option wikiapp :=
  match events with
  | [] => Some a
  | e :: rest =>
      match gui_step e a with
      | Some a' => gui_run rest a'
      | None => None
      end
  end.

End AutoArchive.

(** An archive on disk for the examples: two page folders and a file. *)
Definition demo_outside : outside :=
  Outside (fun s => s)
    (fun d => if str_eqb d BASE_ARCHIVE then Some [py"seed"; py"notes.txt"; py"a_b"]
              else if str_eqb d (py"wiki_archive/seed/images")
                   then Some [py"img_0.png"; py"img_1"; py"img_2.svg"]
              else None)
    (fun p => str_eqb p (py"wiki_archive/seed") || str_eqb p (py"wiki_archive/a_b"))
    (fun p => str_eqb p (py"wiki_archive/seed/page.html")
              || str_eqb p (py"wiki_archive/seed/images"))
    (fun p => if str_eqb p (py"wiki_archive/seed/page.html") then Some (py"<p>Seed</p>")
              else None)
    (fun c => py"Seed")
    (fun p => true).

(** The number of "Auto-archive started." lines printed so far. *)
Definition started_count (lines : list app_log) : nat :=
  length (List.filter (fun m => match m with AutoArchiveStarted => true | _ => false end) lines).

(** The background colour that goes with the dark-mode setting. *)
Definition viewer_bg (a : wikiapp) : list N := if dark_mode a then py"#222" else py"#fff".

(** The application after a full run of auto-archive on the small web. *)
Definition demo_archived : wikiapp :=
  Eval vm_compute in
    match run_auto_archive (fun _ => false) demo_net demo_parser demo_urljoin demo_os 1
            (fun _ => true) new_app with
    | Some (a, _) => a
    | None => new_app
    end.

(** The application after three clicks on the Auto-Archive check box. *)
Definition demo_clicked : wikiapp :=
  Eval vm_compute in
    match gui_run (fun _ => false) demo_net demo_parser demo_urljoin demo_os
            [ClickAutoArchive; ClickAutoArchive; ClickAutoArchive] new_app with
    | Some a => a
    | None => new_app
    end.

(** Every visited URL has its "Crawling page" line. *)
Definition visited_were_crawled (st : crawler) : Prop :=
  forall u, u ∈ visited st -> In u (crawled (trace st)).

(** * Properties *)

(** ** [safe_folder_name] *)

Lemma below_256_cases (P : N -> bool) :
  forallb P (map N.of_nat (seq 0 256)) = true ->
  forall c, c < 256 -> P c = true.
Proof.
  intros H c Hc.
  rewrite forallb_forall in H. apply H.
  apply in_map_iff. exists (N.to_nat c). split; [lia|].
  apply in_seq. lia.
Qed.

Lemma safe_char_kept tbl c :
  safe_char tbl c = if kept_char tbl c then c else 95.
Proof.
  unfold safe_char, kept_char, isalnum.
  destruct (c <? 256) eqn:E.
  - apply N.ltb_lt in E. revert c E.
    set (P := fun c : N =>
      bool_decide ((if latin1_isalnum c || contains c (py"_-") then c else 95)
                   = (if in_ascii_class c || ((128 <=? c) && latin1_isalnum c) then c else 95))).
    intros c Hc.
    assert (HP : P c = true) by (apply below_256_cases; [vm_compute; reflexivity | exact Hc]).
    unfold P in HP. apply bool_decide_eq_true in HP. exact HP.
  - apply N.ltb_ge in E.
    assert (Hc : in_ascii_class c = false).
    { unfold in_ascii_class.
      replace (c <=? 90) with false by (symmetry; apply N.leb_gt; lia).
      replace (c <=? 122) with false by (symmetry; apply N.leb_gt; lia).
      replace (c <=? 57) with false by (symmetry; apply N.leb_gt; lia).
      replace (c =? 95) with false by (symmetry; apply N.eqb_neq; lia).
      replace (c =? 45) with false by (symmetry; apply N.eqb_neq; lia).
      rewrite !andb_false_r. reflexivity. }
    assert (Hu : contains c (py"_-") = false).
    { change (contains c (py"_-")) with ((c =? 95) || ((c =? 45) || false)).
      replace (c =? 95) with false by (symmetry; apply N.eqb_neq; lia).
      replace (c =? 45) with false by (symmetry; apply N.eqb_neq; lia).
      reflexivity. }
    rewrite Hc, Hu.
    replace (128 <=? c) with true by (symmetry; apply N.leb_le; lia).
    rewrite orb_false_r. reflexivity.
Qed.

Example safe_folder_name_ascii :
  safe_folder_name (fun _ => false) (py"C++ (lang)/v-2_0") = py"C____lang__v-2_0".
Proof. reflexivity. Qed.

(** The title "Café" (é is U+00E9) keeps its last letter, whatever the
    table says above Latin-1. *)
Lemma safe_folder_name_cafe tbl :
  safe_folder_name tbl [67; 97; 102; 233] = [67; 97; 102; 233].
Proof. reflexivity. Qed.

(** C7, as stated, fails: replacing every character outside [A-Za-z0-9_-]
    would turn "Café" into "Caf_", and [safe_folder_name] returns "Café". *)
Lemma C7_counterexample :
  ~ (forall (tbl : N -> bool) (title : list N),
       safe_folder_name tbl title = spec_safe_title title).
Proof.
  intros H. specialize (H (fun _ => false) [67; 97; 102; 233]).
  vm_compute in H. discriminate H.
Qed.

(** C7, amended: the folder name replaces by ['_'] every character that is
    neither in [A-Za-z0-9_-] nor a non-ASCII character that [str.isalnum]
    accepts, and keeps all other characters unchanged. *)
Theorem C7_safe_folder_name_kept_chars (tbl : N -> bool) (title : list N) :
  safe_folder_name tbl title = map (fun c => if kept_char tbl c then c else 95) title.
Proof.
  apply map_ext. intros c. apply safe_char_kept.
Qed.

(** On ASCII titles the specification's wording is exact. *)
Lemma safe_folder_name_ascii_titles tbl title :
  Forall (fun c => c < 128) title ->
  safe_folder_name tbl title = spec_safe_title title.
Proof.
  intros H. unfold safe_folder_name, spec_safe_title.
  induction H as [|c l Hc _ IH]; [reflexivity|].
  simpl. rewrite IH. f_equal.
  rewrite safe_char_kept. unfold kept_char.
  replace (128 <=? c) with false by (symmetry; apply N.leb_gt; lia).
  rewrite orb_false_r. reflexivity.
Qed.

(** ** String helpers *)

Lemma startswith_app p s : startswith p (p ++ s) = true.
Proof. induction p as [|a p IH]; simpl; [reflexivity|]. rewrite N.eqb_refl. exact IH. Qed.

Lemma startswith_spec p s : startswith p s = true <-> exists r, s = p ++ r.
Proof.
  split.
  - revert s. induction p as [|a p IH]; intros s H; simpl in *.
    + exists s. reflexivity.
    + destruct s as [|b s]; [discriminate|].
      apply andb_true_iff in H as [Hab Hs]. apply N.eqb_eq in Hab. subst b.
      destruct (IH _ Hs) as [r ->]. exists r. reflexivity.
  - intros [r ->]. apply startswith_app.
Qed.

Lemma contains_spec c s : contains c s = true <-> In c s.
Proof.
  induction s as [|b s IH]; simpl.
  - split; [discriminate | tauto].
  - rewrite orb_true_iff, IH, N.eqb_eq. split; intros [H|H]; auto.
Qed.

Lemma split_head_absent c s : contains c s = false -> split_head c s = s.
Proof.
  induction s as [|b s IH]; simpl; [reflexivity|].
  intros H. apply orb_false_iff in H as [H1 H2]. rewrite H1, IH; auto.
Qed.

(** ** Image URLs: [resolve_src] and the file extension *)

Example resolve_src_cdn :
  resolve_src (py"//cdn.example/x.png") = py"https://cdn.example/x.png".
Proof. reflexivity. Qed.

Lemma resolve_src_protocol_relative rest :
  resolve_src (py"//" ++ rest) = py"https://" ++ rest.
Proof. reflexivity. Qed.

Lemma resolve_src_root_relative rest :
  startswith (py"/") rest = false ->
  resolve_src (py"/" ++ rest) = py"https://en.wikipedia.org/" ++ rest.
Proof.
  intros H. unfold resolve_src.
  destruct rest as [|c rest]; [reflexivity|].
  change (startswith (py"//") (py"/" ++ c :: rest)) with (startswith (py"/") (c :: rest)).
  rewrite H. reflexivity.
Qed.

Lemma resolve_src_other src :
  startswith (py"/") src = false -> resolve_src src = src.
Proof.
  intros H. unfold resolve_src.
  destruct src as [|c src]; [reflexivity|].
  change (startswith (py"//") (c :: src)) with ((47 =? c) && startswith (py"/") src).
  change (startswith (py"/") (c :: src)) with ((47 =? c) && true) in H |- *.
  rewrite andb_true_r in H. rewrite H. reflexivity.
Qed.

(** Without a query string the two readings of the extension agree. *)
Lemma image_ext_no_query src :
  contains 63 src = false -> image_ext src = spec_path_ext src.
Proof.
  intros H. unfold image_ext, spec_path_ext.
  rewrite (split_head_absent _ src H).
  apply split_head_absent.
  unfold splitext_ext.
  destruct (_ <? _)%Z; [|reflexivity].
  destruct (existsb _ _); [|reflexivity].
  unfold slice_from.
  destruct (contains 63 (drop _ src)) eqn:E; [|reflexivity].
  apply contains_spec in E. apply list_elem_of_In in E.
  assert (Hin : 63 ∈ src) by (eapply subseteq_drop; exact E).
  apply list_elem_of_In in Hin. apply contains_spec in Hin. congruence.
Qed.

Example splitext_ext_cases :
  splitext_ext (py"https://h/a.png?v=1.2") = py".2" /\
  splitext_ext (py"https://h/a.png?u=/b") = [] /\
  splitext_ext (py"https://h/.hidden") = [] /\
  splitext_ext (py"a/..b") = [] /\
  splitext_ext (py"a/...") = [] /\
  splitext_ext (py"a/.x.y") = py".y".
Proof. repeat split; reflexivity. Qed.

Example image_fname_plain :
  image_fname 3 (py"https://upload.wikimedia.org/a/b/Cat.jpg") = py"img_3.jpg".
Proof. reflexivity. Qed.

Example image_fname_query :
  image_fname 12 (py"https://h/a.png?width=200") = py"img_12.png".
Proof. reflexivity. Qed.

(** C5: on a source URL whose query string contains a dot, the extension
    that [save_page] uses for the file name is cut out of the query string
    ([".2"]), not the extension of the URL's path ([".png"]): the query is
    stripped after [os.path.splitext] has run, not before. *)
Theorem C5_ext_taken_from_query :
  image_ext (py"https://h/a.png?v=1.2") = py".2" /\
  spec_path_ext (py"https://h/a.png?v=1.2") = py".png" /\
  image_fname 0 (py"https://h/a.png?v=1.2") = py"img_0.2".
Proof. repeat split; reflexivity. Qed.

(** ** The image loop of [save_page] *)

Section SaveImages.

Variable net : nat -> list N -> reply.
Variable os : list event -> event -> bool.
Variables title img_folder : list N.

Let loop := save_images net os title img_folder.

Lemma save_images_cons img rest i c st :
  loop (img :: rest) i c st =
    if (IMAGE_LIMIT <=? c)%nat then st
    else match img with
         | None | Some [] => loop rest (S i) c st
         | Some src0 =>
             let src := resolve_src src0 in
             let '(r, st1) := requests_get net src st in
             match r with
             | Response code content =>
                 if (code =? 200)%Z then
                   let file := WriteFile (os_path_join img_folder (image_fname i src))
                                 (BytesOf content) in
                   if os (trace st1) file then
                     loop rest (S i) (S c)
                       (log (DownloadedImage (image_fname i src) title) (emit file st1))
                   else loop rest (S i) c (log (ImageFailed src OSError) st1)
                 else loop rest (S i) c st1
             | Raises e => loop rest (S i) c (log (ImageFailed src e) st1)
             end
         end.
Proof. reflexivity. Qed.

Lemma save_images_at_limit images i c st :
  (IMAGE_LIMIT <= c)%nat -> loop images i c st = st.
Proof.
  intros H. destruct images as [|img rest]; [reflexivity|].
  rewrite save_images_cons.
  destruct (Nat.leb_spec IMAGE_LIMIT c) as [_|Hlt]; [reflexivity | lia].
Qed.

Lemma save_images_skip_missing rest i c st :
  (c < IMAGE_LIMIT)%nat ->
  loop (None :: rest) i c st = loop rest (S i) c st.
Proof.
  intros H. rewrite save_images_cons.
  destruct (Nat.leb_spec IMAGE_LIMIT c) as [Hge|_]; [lia | reflexivity].
Qed.

Lemma save_images_skip_empty rest i c st :
  (c < IMAGE_LIMIT)%nat ->
  loop (Some [] :: rest) i c st = loop rest (S i) c st.
Proof.
  intros H. rewrite save_images_cons.
  destruct (Nat.leb_spec IMAGE_LIMIT c) as [Hge|_]; [lia | reflexivity].
Qed.

Lemma save_images_fetch src rest i c st :
  (c < IMAGE_LIMIT)%nat -> src <> [] ->
  loop (Some src :: rest) i c st =
    let url := resolve_src src in
    let st1 := (requests_get net url st).2 in
    match net (requests st) url with
    | Response code content =>
        if (code =? 200)%Z then
          let file := WriteFile (os_path_join img_folder (image_fname i url)) (BytesOf content) in
          if os (trace st1) file then
            loop rest (S i) (S c) (log (DownloadedImage (image_fname i url) title) (emit file st1))
          else loop rest (S i) c (log (ImageFailed url OSError) st1)
        else loop rest (S i) c st1
    | Raises e => loop rest (S i) c (log (ImageFailed url e) st1)
    end.
Proof.
  intros H Hsrc. rewrite save_images_cons.
  destruct (Nat.leb_spec IMAGE_LIMIT c) as [Hge|_]; [lia|].
  destruct src as [|a src]; [congruence|].
  reflexivity.
Qed.

(** The loop only adds events, and at most [IMAGE_LIMIT - img_count] of
    them write an image; it leaves the visited set alone. *)
Lemma save_images_effects images : forall i c st,
  exists evs,
    trace (loop images i c st) = evs ++ trace st /\
    (length (List.filter is_image_write evs) <= IMAGE_LIMIT - c)%nat /\
    (length (List.filter is_http_get evs) <= length images)%nat /\
    requests (loop images i c st) = (length (List.filter is_http_get evs) + requests st)%nat /\
    visited (loop images i c st) = visited st /\
    base_dir (loop images i c st) = base_dir st.
Proof.
  induction images as [|img rest IH]; intros i c st.
  - exists []. simpl. repeat split; lia.
  - destruct (Nat.le_gt_cases IMAGE_LIMIT c) as [Hge|Hlt].
    { rewrite save_images_at_limit by exact Hge.
      exists []. simpl. repeat split; lia. }
    destruct img as [[|a src]|].
    + rewrite save_images_skip_empty by exact Hlt.
      destruct (IH (S i) c st) as (evs & H1 & H2 & H3 & H4 & H5 & H6).
      exists evs. simpl. repeat split; auto; lia.
    + rewrite save_images_fetch by (auto; discriminate).
      cbv zeta. destruct (net (requests st) (resolve_src (a :: src))) as [code content|e].
      * destruct (code =? 200)%Z; [destruct (os _ _)|].
        -- match goal with |- context [loop rest (S i) (S c) ?s] =>
             destruct (IH (S i) (S c) s) as (evs & H1 & H2 & H3 & H4 & H5 & H6) end.
           exists (evs ++ [Log (DownloadedImage (image_fname i (resolve_src (a :: src))) title);
                           WriteFile (os_path_join img_folder (image_fname i (resolve_src (a :: src)))) (BytesOf content);
                           HttpGet (resolve_src (a :: src)) USER_AGENT]).
           rewrite H1, H4, H5, H6. rewrite <- app_assoc.
           rewrite !List.filter_app, !length_app. simpl.
           repeat split; auto; lia.
        -- match goal with |- context [loop rest (S i) c ?s] =>
             destruct (IH (S i) c s) as (evs & H1 & H2 & H3 & H4 & H5 & H6) end.
           exists (evs ++ [Log (ImageFailed (resolve_src (a :: src)) OSError);
                           HttpGet (resolve_src (a :: src)) USER_AGENT]).
           rewrite H1, H4, H5, H6. rewrite <- app_assoc.
           rewrite !List.filter_app, !length_app. simpl.
           repeat split; auto; lia.
        -- match goal with |- context [loop rest (S i) c ?s] =>
             destruct (IH (S i) c s) as (evs & H1 & H2 & H3 & H4 & H5 & H6) end.
           exists (evs ++ [HttpGet (resolve_src (a :: src)) USER_AGENT]).
           rewrite H1, H4, H5, H6. rewrite <- app_assoc.
           rewrite !List.filter_app, !length_app. simpl.
           repeat split; auto; lia.
      * match goal with |- context [loop rest (S i) c ?s] =>
          destruct (IH (S i) c s) as (evs & H1 & H2 & H3 & H4 & H5 & H6) end.
        exists (evs ++ [Log (ImageFailed (resolve_src (a :: src)) e);
                        HttpGet (resolve_src (a :: src)) USER_AGENT]).
        rewrite H1, H4, H5, H6. rewrite <- app_assoc.
        rewrite !List.filter_app, !length_app. simpl.
        repeat split; auto; lia.
    + rewrite save_images_skip_missing by exact Hlt.
      destruct (IH (S i) c st) as (evs & H1 & H2 & H3 & H4 & H5 & H6).
      exists evs. simpl. repeat split; auto; lia.
Qed.

End SaveImages.

(** ** File names of images: the index can be read back *)

Lemma digits_are_digits u : forallb is_digit (digits u) = true.
Proof. induction u; simpl; auto. Qed.

Lemma digits_inj u v : digits u = digits v -> u = v.
Proof.
  revert v. induction u; intros v H; destruct v; simpl in H;
    try discriminate; try reflexivity;
    injection H as H; f_equal; auto.
Qed.

Lemma str_of_nat_inj i j : str_of_nat i = str_of_nat j -> i = j.
Proof.
  intros H. apply digits_inj in H.
  rewrite <- (DecimalNat.Unsigned.of_to i), <- (DecimalNat.Unsigned.of_to j).
  congruence.
Qed.

Lemma digit_prefix_unique l1 : forall l2 e1 e2,
  forallb is_digit l1 = true -> forallb is_digit l2 = true ->
  starts_with_digit e1 = false -> starts_with_digit e2 = false ->
  l1 ++ e1 = l2 ++ e2 -> l1 = l2.
Proof.
  induction l1 as [|a l1 IH]; intros [|b l2] e1 e2 H1 H2 He1 He2 H; simpl in *.
  - reflexivity.
  - subst e1. simpl in He1. apply andb_true_iff in H2 as [Hb _]. congruence.
  - subst e2. simpl in He2. apply andb_true_iff in H1 as [Ha _]. congruence.
  - injection H as Hab H. subst b.
    apply andb_true_iff in H1 as [_ H1]. apply andb_true_iff in H2 as [_ H2].
    f_equal. exact (IH l2 e1 e2 H1 H2 He1 He2 H).
Qed.

Lemma rfind_aux_spec c s : forall i found,
  rfind_aux c s i found = found \/
  ((i <= rfind_aux c s i found)%Z /\
   exists r, drop (Z.to_nat (rfind_aux c s i found - i)) s = c :: r).
Proof.
  induction s as [|b s IH]; intros i found; simpl; [left; reflexivity|].
  destruct (IH (i + 1)%Z (if c =? b then i else found)) as [H|[Hle [r Hr]]].
  - rewrite H. destruct (N.eqb_spec c b) as [->|_]; [|left; reflexivity].
    right. split; [lia|]. exists s. rewrite Z.sub_diag. reflexivity.
  - right. split; [lia|]. exists r.
    replace (Z.to_nat (rfind_aux c s (i + 1) (if c =? b then i else found) - i))
      with (S (Z.to_nat (rfind_aux c s (i + 1) (if c =? b then i else found) - (i + 1))))
      by lia.
    exact Hr.
Qed.

Lemma rfind_lower c s : (-1 <= rfind c s)%Z.
Proof.
  unfold rfind. destruct (rfind_aux_spec c s 0 (-1)) as [H|[H _]]; lia.
Qed.

Lemma splitext_ext_head p : splitext_ext p = [] \/ exists r, splitext_ext p = 46 :: r.
Proof.
  unfold splitext_ext.
  destruct (Z.ltb_spec (rfind 47 p) (rfind 46 p)) as [Hlt|_]; [|left; reflexivity].
  destruct (existsb _ _); [|left; reflexivity].
  right. unfold slice_from.
  pose proof (rfind_lower 47 p) as Hlow.
  unfold rfind in *.
  destruct (rfind_aux_spec 46 p 0 (-1)) as [H|[_ [r Hr]]]; [lia|].
  exists r. rewrite Z.sub_0_r in Hr. exact Hr.
Qed.

Lemma image_ext_no_digit src : starts_with_digit (image_ext src) = false.
Proof.
  unfold image_ext.
  destruct (splitext_ext_head src) as [->|[r ->]]; reflexivity.
Qed.

Lemma image_fname_inj i j s1 s2 : image_fname i s1 = image_fname j s2 -> i = j.
Proof.
  unfold image_fname. intros H.
  apply app_inv_head in H.
  apply str_of_nat_inj.
  apply (digit_prefix_unique _ _ (image_ext s1) (image_ext s2));
    [apply digits_are_digits | apply digits_are_digits
    | apply image_ext_no_digit | apply image_ext_no_digit | exact H].
Qed.

Lemma os_path_join_fname_inj dir i j s1 s2 :
  os_path_join dir (image_fname i s1) = os_path_join dir (image_fname j s2) -> i = j.
Proof.
  unfold os_path_join.
  change (startswith (py"/") (image_fname i s1)) with false.
  change (startswith (py"/") (image_fname j s2)) with false.
  destruct (_ || _); intros H; apply app_inv_head in H.
  - exact (image_fname_inj _ _ _ _ H).
  - apply (app_inv_head (py"/")) in H. exact (image_fname_inj _ _ _ _ H).
Qed.

Section SaveImagesFiles.

Variable net : nat -> list N -> reply.
Variable os : list event -> event -> bool.
Variables title img_folder : list N.

Let loop := save_images net os title img_folder.

(** Every file the loop writes is named after the position, in the list
    the loop was started on, of an element with a non-empty [src]. *)
Lemma save_images_written images : forall i c st evs path data,
  trace (loop images i c st) = evs ++ trace st ->
  In (WriteFile path data) evs ->
  exists j src,
    (i <= j)%nat /\ images !! (j - i)%nat = Some (Some src) /\ src <> [] /\
    path = os_path_join img_folder (image_fname j (resolve_src src)).
Proof.
  induction images as [|img rest IH]; intros i c st evs path data Htr Hin.
  - simpl in Htr. apply (app_inv_tail _ [] evs) in Htr. subst evs. destruct Hin.
  - assert (Hrest : forall st1 new,
              trace st1 = new ++ trace st ->
              forall c1, loop (img :: rest) i c st = loop rest (S i) c1 st1 ->
              (In (WriteFile path data) new ->
               exists src, img = Some src /\ src <> [] /\
                 path = os_path_join img_folder (image_fname i (resolve_src src))) ->
              exists j src,
                (i <= j)%nat /\ (img :: rest) !! (j - i)%nat = Some (Some src) /\ src <> [] /\
                path = os_path_join img_folder (image_fname j (resolve_src src))).
    { intros st1 new Hst1 c1 Heq Hnew.
      destruct (save_images_effects net os title img_folder rest (S i) c1 st1)
        as (evs' & Hevs' & _).
      fold loop in Hevs'. rewrite Heq, Hevs', Hst1, app_assoc in Htr.
      apply app_inv_tail in Htr. subst evs.
      apply in_app_or in Hin as [Hin|Hin].
      - destruct (IH (S i) c1 st1 evs' path data Hevs' Hin) as (j & src & Hj & Hl & Hs & Hp).
        exists j, src. repeat split; auto; [lia|].
        replace (j - i)%nat with (S (j - S i)) by lia. exact Hl.
      - destruct (Hnew Hin) as (src & -> & Hs & Hp).
        exists i, src. rewrite Nat.sub_diag. repeat split; auto. }
    destruct (Nat.le_gt_cases IMAGE_LIMIT c) as [Hge|Hlt].
    { unfold loop in Htr. rewrite save_images_at_limit in Htr by exact Hge.
      apply (app_inv_tail _ [] evs) in Htr. subst evs. destruct Hin. }
    destruct img as [[|a src]|].
    + apply (Hrest st [] eq_refl c); [apply save_images_skip_empty; exact Hlt|].
      intros [].
    + pose proof (save_images_fetch net os title img_folder (a :: src) rest i c st Hlt
                    ltac:(discriminate)) as Heq.
      cbv zeta in Heq. fold loop in Heq.
      destruct (net (requests st) (resolve_src (a :: src))) as [code content|e].
      * destruct (code =? 200)%Z; [destruct (os _ _)|].
        -- match type of Heq with _ = loop _ _ ?c1 ?s =>
             refine (Hrest s (take 3 (trace s)) eq_refl c1 Heq _) end.
           simpl. intros [H|[H|[H|[]]]]; try discriminate H.
           injection H as <- _. exists (a :: src). repeat split; auto; discriminate.
        -- match type of Heq with _ = loop _ _ ?c1 ?s =>
             refine (Hrest s (take 2 (trace s)) eq_refl c1 Heq _) end.
           simpl. intros [H|[H|[]]]; discriminate H.
        -- match type of Heq with _ = loop _ _ ?c1 ?s =>
             refine (Hrest s (take 1 (trace s)) eq_refl c1 Heq _) end.
           simpl. intros [H|[]]; discriminate H.
      * match type of Heq with _ = loop _ _ ?c1 ?s =>
          refine (Hrest s (take 2 (trace s)) eq_refl c1 Heq _) end.
        simpl. intros [H|[H|[]]]; discriminate H.
    + apply (Hrest st [] eq_refl c); [apply save_images_skip_missing; exact Hlt|].
      intros [].
Qed.

End SaveImagesFiles.

(** ** [save_page] *)

Lemma save_page_effects tbl net os title soup st :
  exists evs,
    trace (save_page tbl net os title soup st).2 = evs ++ trace st /\
    (length (List.filter is_image_write evs) <= IMAGE_LIMIT)%nat /\
    (forall folder, (save_page tbl net os title soup st).1 = Some folder ->
       folder = os_path_join (base_dir st) (safe_folder_name tbl title) /\
       In (WriteFile (os_path_join folder (py"page.html")) (HtmlOf soup)) evs) /\
    visited (save_page tbl net os title soup st).2 = visited st /\
    base_dir (save_page tbl net os title soup st).2 = base_dir st /\
    (requests st <= requests (save_page tbl net os title soup st).2)%nat.
Proof.
  unfold save_page. cbv zeta.
  set (folder := os_path_join (base_dir st) (safe_folder_name tbl title)).
  destruct (os (trace st) (Makedirs folder)); cbn [negb];
    [|exists []; repeat split; simpl; auto; try lia; discriminate].
  destruct (os _ (WriteFile _ _)); cbn [negb];
    [|exists [Makedirs folder]; repeat split; simpl; auto; try lia; discriminate].
  destruct (os _ (Makedirs (os_path_join folder (py"images")))); cbn [negb];
    [|exists [Log (SavedHtml title);
              WriteFile (os_path_join folder (py"page.html")) (HtmlOf soup);
              Makedirs folder];
      repeat split; simpl; auto; try lia; discriminate].
  simpl fst. simpl snd.
  match goal with |- context [save_images net os title ?d ?l 0 0 ?s] =>
    destruct (save_images_effects net os title d l 0%nat 0%nat s)
      as (evs & H1 & H2 & _ & H4 & H5 & H6) end.
  exists (evs ++ [Makedirs (os_path_join folder (py"images"));
                  Log (SavedHtml title);
                  WriteFile (os_path_join folder (py"page.html")) (HtmlOf soup);
                  Makedirs folder]).
  rewrite H1, H4, H5, H6. rewrite <- app_assoc.
  rewrite List.filter_app, length_app.
  change (List.filter is_image_write [_; _; _; _]) with (@nil event).
  repeat split; auto.
  - unfold IMAGE_LIMIT in *. simpl length. lia.
  - congruence.
  - injection H as <-. apply in_or_app. right. right. right. left. reflexivity.
  - simpl. lia.
Qed.

(** C4: a page save writes at most [IMAGE_LIMIT] = 5 image files, whatever
    the number of [img] elements; an image whose fetch raises or whose status
    is not 200 is passed over with the download count unchanged, and so is
    one whose file cannot be written; a downloaded one raises the count by
    one; and once the count has reached the limit the loop ends without
    looking at the remaining images. *)
Theorem C4_image_cap tbl net os title dir soup src rest images i c c' st :
  (c < IMAGE_LIMIT)%nat -> src <> [] -> (IMAGE_LIMIT <= c')%nat ->
  IMAGE_LIMIT = 5%nat /\
  (exists evs,
     trace (save_page tbl net os title soup st).2 = evs ++ trace st /\
     (length (List.filter is_image_write evs) <= IMAGE_LIMIT)%nat) /\
  (forall e, net (requests st) (resolve_src src) = Raises e ->
     save_images net os title dir (Some src :: rest) i c st =
     save_images net os title dir rest (S i) c
       (log (ImageFailed (resolve_src src) e) (requests_get net (resolve_src src) st).2)) /\
  (forall code content,
     net (requests st) (resolve_src src) = Response code content -> code <> 200%Z ->
     save_images net os title dir (Some src :: rest) i c st =
     save_images net os title dir rest (S i) c (requests_get net (resolve_src src) st).2) /\
  (forall content,
     net (requests st) (resolve_src src) = Response 200 content ->
     let st1 := (requests_get net (resolve_src src) st).2 in
     let file := WriteFile (os_path_join dir (image_fname i (resolve_src src)))
                   (BytesOf content) in
     save_images net os title dir (Some src :: rest) i c st =
     if os (trace st1) file then
       save_images net os title dir rest (S i) (S c)
         (log (DownloadedImage (image_fname i (resolve_src src)) title) (emit file st1))
     else
       save_images net os title dir rest (S i) c
         (log (ImageFailed (resolve_src src) OSError) st1)) /\
  save_images net os title dir images i c' st = st.
Proof.
  intros Hc Hsrc Hc'.
  pose proof (save_images_fetch net os title dir src rest i c st Hc Hsrc) as Heq.
  cbv zeta in Heq.
  split; [reflexivity|]. split.
  { destruct (save_page_effects tbl net os title soup st) as (evs & H1 & H2 & _).
    exists evs. split; assumption. }
  split; [|split; [|split]].
  - intros e He. rewrite He in Heq. exact Heq.
  - intros code content He Hcode. rewrite He in Heq.
    destruct (Z.eqb_spec code 200) as [->|_]; [congruence | exact Heq].
  - intros content He. rewrite He in Heq. exact Heq.
  - apply save_images_at_limit. exact Hc'.
Qed.

Lemma C4_image_cap_witness :
  let st := new_crawler BASE_ARCHIVE in
  let imgs := [Some (py"/a.png"); Some (py"/missing.png"); None] in
  trace (save_images demo_net demo_os (py"T") (py"d") (Some (py"/down.png") :: imgs) 0 4 st)
  = trace (save_images demo_net demo_os (py"T") (py"d") imgs 1 4
      (log (ImageFailed (resolve_src (py"/down.png")) (RequestException (py"connection reset")))
         (requests_get demo_net (resolve_src (py"/down.png")) st).2)).
Proof.
  intros st imgs.
  destruct (C4_image_cap (fun _ => false) demo_net demo_os (py"T") (py"d") []
              (py"/down.png") imgs imgs 0 4 5 st) as (_ & _ & H & _).
  - unfold IMAGE_LIMIT. lia.
  - discriminate.
  - unfold IMAGE_LIMIT. lia.
  - rewrite (H (RequestException (py"connection reset")) eq_refl). reflexivity.
Defined.

(** C6: the source of an image is resolved before it is fetched:
    [//host/path] becomes [https://host/path], [/path] becomes
    [https://en.wikipedia.org/path], every other source is used as it is;
    the request of the loop is sent to the resolved URL. *)
Theorem C6_image_src_resolved net os title dir src rest i c st :
  (c < IMAGE_LIMIT)%nat -> src <> [] ->
  (forall r, src = py"//" ++ r -> resolve_src src = py"https://" ++ r) /\
  (forall r, src = py"/" ++ r -> startswith (py"/") r = false ->
     resolve_src src = py"https://en.wikipedia.org/" ++ r) /\
  (startswith (py"/") src = false -> resolve_src src = src) /\
  exists evs,
    trace (save_images net os title dir (Some src :: rest) i c st)
    = evs ++ HttpGet (resolve_src src) USER_AGENT :: trace st.
Proof.
  intros Hc Hsrc. repeat split.
  - intros r ->. apply resolve_src_protocol_relative.
  - intros r -> Hr. apply resolve_src_root_relative. exact Hr.
  - apply resolve_src_other.
  - rewrite (save_images_fetch net os title dir src rest i c st Hc Hsrc). cbv zeta.
    destruct (net (requests st) (resolve_src src)) as [code content|e];
      [destruct (code =? 200)%Z; [destruct (os _ _)|]|];
      match goal with |- context [save_images net os title dir rest ?i1 ?c1 ?s] =>
        destruct (save_images_effects net os title dir rest i1 c1 s) as (evs & H1 & _)
      end; rewrite H1; simpl.
    + exists (evs ++ [Log (DownloadedImage (image_fname i (resolve_src src)) title);
                      WriteFile (os_path_join dir (image_fname i (resolve_src src))) (BytesOf content)]).
      rewrite <- app_assoc. reflexivity.
    + exists (evs ++ [Log (ImageFailed (resolve_src src) OSError)]).
      rewrite <- app_assoc. reflexivity.
    + exists evs. reflexivity.
    + exists (evs ++ [Log (ImageFailed (resolve_src src) e)]).
      rewrite <- app_assoc. reflexivity.
Qed.

Lemma C6_image_src_resolved_witness :
  exists evs,
    trace (save_images demo_net demo_os (py"T") (py"d") [Some (py"//cdn.example/x.png")] 0 0
             (new_crawler BASE_ARCHIVE))
    = evs ++ HttpGet (py"https://cdn.example/x.png") USER_AGENT
          :: trace (new_crawler BASE_ARCHIVE).
Proof.
  destruct (C6_image_src_resolved demo_net demo_os (py"T") (py"d") (py"//cdn.example/x.png") [] 0 0
              (new_crawler BASE_ARCHIVE)) as (_ & _ & _ & H).
  - unfold IMAGE_LIMIT. lia.
  - discriminate.
  - exact H.
Defined.

(** C10: an [img] element without [src], or with an empty one, is passed
    over with no request and no file (the loop goes on from the same state),
    but it has used up its position: every file the loop writes is named
    after a later position, and no file is named after the skipped one. *)
Theorem C10_missing_src_keeps_position net os title dir img rest i c st :
  img = None \/ img = Some [] ->
  save_images net os title dir (img :: rest) i c st
    = save_images net os title dir rest (S i) c st /\
  forall evs path data,
    trace (save_images net os title dir (img :: rest) i c st) = evs ++ trace st ->
    In (WriteFile path data) evs ->
    (exists j src,
       (i < j)%nat /\ rest !! (j - S i)%nat = Some (Some src) /\ src <> [] /\
       path = os_path_join dir (image_fname j (resolve_src src))) /\
    (forall src', path <> os_path_join dir (image_fname i src')).
Proof.
  intros Himg.
  assert (Heq : save_images net os title dir (img :: rest) i c st
                = save_images net os title dir rest (S i) c st).
  { destruct (Nat.le_gt_cases IMAGE_LIMIT c) as [Hge|Hlt].
    - rewrite !save_images_at_limit by exact Hge. reflexivity.
    - destruct Himg as [->| ->].
      + apply save_images_skip_missing. exact Hlt.
      + apply save_images_skip_empty. exact Hlt. }
  split; [exact Heq|].
  intros evs path data Htr Hin. rewrite Heq in Htr.
  destruct (save_images_written net os title dir rest (S i) c st evs path data Htr Hin)
    as (j & src & Hj & Hl & Hs & Hp).
  split.
  - exists j, src. repeat split; auto.
  - intros src' Hp'. rewrite Hp in Hp'.
    apply os_path_join_fname_inj in Hp'. lia.
Qed.

Lemma C10_missing_src_keeps_position_witness :
  (@None (list N) = None \/ @None (list N) = Some []) /\
  save_images demo_net demo_os (py"T") (py"d") [None; Some (py"/b.png")] 0 0
    (new_crawler BASE_ARCHIVE)
  = save_images demo_net demo_os (py"T") (py"d") [Some (py"/b.png")] 1 0
      (new_crawler BASE_ARCHIVE).
Proof.
  split; [left; reflexivity|].
  apply (C10_missing_src_keeps_position demo_net demo_os (py"T") (py"d") None
           [Some (py"/b.png")] 0 0
           (new_crawler BASE_ARCHIVE)).
  left. reflexivity.
Defined.

Example save_images_gap :
  List.filter is_image_write
    (trace (save_images demo_net demo_os (py"T") (py"d")
              [Some (py"/missing.png"); None; Some (py"/c.png")] 0 0
              (Crawler BASE_ARCHIVE ∅ 0 [])))
  = [WriteFile (py"d/img_2.png") (BytesOf (py"https://en.wikipedia.org/c.png"))].
Proof. vm_compute. reflexivity. Qed.

(** ** [clean_html] *)

Lemma head_of_detach_in o n : head_of (detach_in o n) = head_of n.
Proof. destruct n; reflexivity. Qed.

Lemma descendants_cons c soup :
  descendants (c :: soup) = c :: descendants_of c ++ descendants soup.
Proof. reflexivity. Qed.

Lemma descendants_of_tag i name cl at_ cs :
  descendants_of (Tag i name cl at_ cs) = descendants cs.
Proof. reflexivity. Qed.

Lemma heads_detach_list o cs :
  Forall (fun c => forall h, In h (map head_of (descendants_of (detach_in o c))) ->
                     In h (map head_of (descendants_of c)) /\ h.1 <> o) cs ->
  forall h, In h (heads (detach o cs)) -> In h (heads cs) /\ h.1 <> o.
Proof.
  unfold heads, detach.
  induction 1 as [|c cs Hc _ IH]; intros h Hin; [destruct Hin|].
  rewrite descendants_cons. simpl map in *. simpl List.filter in Hin.
  destruct (Nat.eqb_spec (node_oid (detach_in o c)) o) as [Heq|Hne]; simpl negb in Hin; cbv iota in Hin.
  - destruct (IH h Hin) as [H1 H2]. split; [|exact H2].
    right. rewrite map_app. apply in_or_app. right. exact H1.
  - rewrite descendants_cons in Hin. simpl map in Hin. rewrite map_app in Hin.
    destruct Hin as [Hin|Hin].
    + rewrite head_of_detach_in in Hin. subst h. split; [left; reflexivity|].
      simpl. intros E. apply Hne. rewrite <- E. destruct c; reflexivity.
    + apply in_app_or in Hin as [Hin|Hin].
      * destruct (Hc h Hin) as [H1 H2]. split; [|exact H2].
        right. rewrite map_app. apply in_or_app. left. exact H1.
      * destruct (IH h Hin) as [H1 H2]. split; [|exact H2].
        right. rewrite map_app. apply in_or_app. right. exact H1.
Qed.

Lemma heads_detach_in o n :
  forall h, In h (map head_of (descendants_of (detach_in o n))) ->
       In h (map head_of (descendants_of n)) /\ h.1 <> o.
Proof.
  induction n as [i name cl at_ cs IH|i s|i s] using node_ind;
    try (intros h []).
  intros h Hin. simpl detach_in in Hin. rewrite descendants_of_tag in *.
  exact (heads_detach_list o cs IH h Hin).
Qed.

Lemma heads_detach o soup h :
  In h (heads (detach o soup)) -> In h (heads soup) /\ h.1 <> o.
Proof.
  apply heads_detach_list. apply Forall_forall. intros c _. apply heads_detach_in.
Qed.

Lemma heads_detach_all l : forall soup h,
  In h (heads (fold_left (fun s o => detach o s) l soup)) ->
  In h (heads soup) /\ ~ In h.1 l.
Proof.
  induction l as [|o l IH]; intros soup h Hin; simpl in *.
  - split; [exact Hin | tauto].
  - destruct (IH _ _ Hin) as [H1 H2].
    destruct (heads_detach _ _ _ H1) as [H3 H4].
    split; [exact H3|]. intros [E|E]; [congruence | tauto].
Qed.

(** The filter of the comment pass accepts no string: [soup.Comment] is
    [None] or an element, and a string is an instance of neither class. *)
Lemma soup_find_is_tag name soup :
  type_of (soup_find name soup) = NoneType \/ type_of (soup_find name soup) = TagClass.
Proof.
  unfold soup_find.
  destruct (List.filter (is_tag_named name) (descendants soup)) as [|n l] eqn:E;
    [left; reflexivity|].
  assert (Hn : In n (List.filter (is_tag_named name) (descendants soup)))
    by (rewrite E; left; reflexivity).
  apply filter_In in Hn as [_ Hn].
  destruct n; try discriminate Hn. right. reflexivity.
Qed.

Lemma filter_none {A} (f : A -> bool) (l : list A) :
  (forall x, f x = false) -> List.filter f l = [].
Proof.
  intros H. induction l as [|x l IH]; [reflexivity|].
  cbn [List.filter]. rewrite H. exact IH.
Qed.

Lemma comment_filter_empty soup1 soup :
  find_all_string (fun text => isinstance text (type_of (soup_getattr_Comment soup1))) soup = [].
Proof.
  unfold find_all_string, soup_getattr_Comment.
  rewrite filter_none; [reflexivity|].
  intros n.
  destruct (soup_find_is_tag (py"Comment") soup1) as [-> | ->]; destruct n; reflexivity.
Qed.

(** [clean_html] is the removal of the selected elements and nothing more. *)
Lemma clean_html_only_selectors soup :
  clean_html soup = fold_left (fun s o => detach o s) (select_denylist soup) soup.
Proof. unfold clean_html. cbv zeta. rewrite comment_filter_empty. reflexivity. Qed.

(** No element matching the selector list is left, nested or not. *)
Lemma clean_html_no_boilerplate soup n :
  In n (descendants (clean_html soup)) -> matches_denylist n = false.
Proof.
  intros Hin. rewrite clean_html_only_selectors in Hin.
  destruct (matches_denylist n) eqn:E; [exfalso | reflexivity].
  assert (Hh : In (head_of n) (heads (fold_left (fun s o => detach o s) (select_denylist soup) soup)))
    by (apply in_map; exact Hin).
  apply heads_detach_all in Hh as [H1 H2]. apply H2.
  unfold heads in H1. apply in_map_iff in H1 as (n0 & Hn0 & Hin0).
  unfold head_of in Hn0. rewrite E in Hn0. injection Hn0 as Hoid Hm.
  simpl. rewrite <- Hoid. unfold select_denylist.
  apply in_map. apply filter_In. split; assumption.
Qed.

Lemma clean_html_without_boilerplate soup :
  select_denylist soup = [] -> clean_html soup = soup.
Proof. intros H. rewrite clean_html_only_selectors, H. reflexivity. Qed.

Example clean_html_nested :
  clean_html demo_nested = [Tag 5 (py"p") [py"lead"] ∅ [NavigableString 6 (py"text")]].
Proof. vm_compute. reflexivity. Qed.

(** C3: a comment outside the removed elements stays in the tree that is
    written to [page.html]: the filter [isinstance(text, type(soup.Comment))]
    of the comment pass compares with the class of [soup.find("Comment")]
    and accepts no string.  The selector part of the claim holds
    ([clean_html_no_boilerplate]). *)
Theorem C3_comment_survives :
  clean_html [Tag 1 (py"p") [] ∅ [NavigableString 2 (py"text"); Comment 3 (py" note ")]]
    = [Tag 1 (py"p") [] ∅ [NavigableString 2 (py"text"); Comment 3 (py" note ")]] /\
  In (Comment 3 (py" note "))
     (descendants
        (clean_html [Tag 1 (py"p") [] ∅ [NavigableString 2 (py"text"); Comment 3 (py" note ")]])).
Proof.
  assert (H : clean_html [Tag 1 (py"p") [] ∅ [NavigableString 2 (py"text"); Comment 3 (py" note ")]]
              = [Tag 1 (py"p") [] ∅ [NavigableString 2 (py"text"); Comment 3 (py" note ")]])
    by (apply clean_html_without_boilerplate; reflexivity).
  split; [exact H|]. rewrite H. simpl. right. right. left. reflexivity.
Qed.

(** ** The sublink loop of [crawl_page] *)

Lemma crawlable_spec href :
  crawlable href = true <-> (exists r, href = py"/wiki/" ++ r) /\ ~ In 58 href.
Proof.
  unfold crawlable. rewrite andb_true_iff, negb_true_iff, startswith_spec.
  rewrite <- contains_spec. destruct (contains 58 href); intuition congruence.
Qed.

Lemma crawl_links_cons crawl href rest count depth st :
  crawl_links crawl (href :: rest) count depth st =
    if crawlable href then
      if (SUBLINK_LIMIT <=? count)%nat then Some (None, st)
      else match crawl href (depth + 1)%nat st with
           | None => None
           | Some (Raised e, st') => Some (Some e, st')
           | Some (Returns _, st') => crawl_links crawl rest (S count) depth st'
           end
    else crawl_links crawl rest count depth st.
Proof. reflexivity. Qed.


Lemma crawl_links_depth crawl links :
  (forall href d d' s, crawl href d s = crawl href d' s) ->
  forall count d1 d2 st,
    crawl_links crawl links count d1 st = crawl_links crawl links count d2 st.
Proof.
  intros Hc. induction links as [|href rest IH]; intros count d1 d2 st; [reflexivity|].
  rewrite !crawl_links_cons.
  destruct (crawlable href); [|apply IH].
  destruct (SUBLINK_LIMIT <=? count)%nat; [reflexivity|].
  rewrite (Hc href (d1 + 1)%nat (d2 + 1)%nat st).
  destruct (crawl href (d2 + 1)%nat st) as [[[r|e] st']|]; try reflexivity.
  apply IH.
Qed.

(** ** [crawl_page] *)

Lemma extends_refl st : extends st st.
Proof. repeat split; auto. exists []. reflexivity. Qed.

Lemma extends_trans a b c : extends a b -> extends b c -> extends a c.
Proof.
  intros (H1 & H2 & H3 & e1 & H4) (G1 & G2 & G3 & e2 & G4).
  repeat split.
  - set_solver.
  - congruence.
  - lia.
  - exists (e2 ++ e1). rewrite G4, H4, app_assoc. reflexivity.
Qed.

Lemma extends_emit e st : extends st (emit e st).
Proof. repeat split; simpl; auto. exists [e]. reflexivity. Qed.

Lemma extends_add_visited url st : extends st (add_visited url st).
Proof. repeat split; simpl; auto; [set_solver|]. exists []. reflexivity. Qed.

Lemma extends_requests_get net url st : extends st (requests_get net url st).2.
Proof. repeat split; simpl; auto. exists [HttpGet url USER_AGENT]. reflexivity. Qed.

Lemma extends_save_page tbl net os title soup st :
  extends st (save_page tbl net os title soup st).2.
Proof.
  destruct (save_page_effects tbl net os title soup st) as (evs & H1 & _ & _ & H4 & H5 & H6).
  repeat split.
  - rewrite H4. reflexivity.
  - exact H5.
  - exact H6.
  - exists evs. exact H1.
Qed.

Lemma crawl_links_extends crawl links :
  (forall href d s o s', crawl href d s = Some (o, s') -> extends s s') ->
  forall count depth st e st',
    crawl_links crawl links count depth st = Some (e, st') -> extends st st'.
Proof.
  intros Hc. induction links as [|href rest IH]; intros count depth st e st' H.
  - injection H as _ <-. apply extends_refl.
  - rewrite crawl_links_cons in H.
    destruct (crawlable href); [|eapply IH; exact H].
    destruct (SUBLINK_LIMIT <=? count)%nat.
    { injection H as _ <-. apply extends_refl. }
    destruct (crawl href (depth + 1)%nat st) as [[[r|ex] s1]|] eqn:E; [| |discriminate].
    + eapply extends_trans; [eapply Hc; exact E | eapply IH; exact H].
    + injection H as _ <-. eapply Hc; exact E.
Qed.

Section CrawlPage.

Variable unicode_isalnum : N -> bool.
Variable net : nat -> list N -> reply.
Variable html_parser : list N -> list node.
Variable urljoin : list N -> list N -> option (list N).
Variable os : list event -> event -> bool.

Let crawl := crawl_page unicode_isalnum net html_parser urljoin os.

Lemma crawl_page_S fuel url0 depth st :
  crawl (S fuel) url0 depth st =
    match urljoin (py"https://en.wikipedia.org/") url0 with
    | None => Some (Raised ValueError, st)
    | Some url =>
        if bool_decide (url ∈ visited st) then
          Some (Returns None, log (SkipVisited url) st)
        else
          let st1 := log (Crawling url) (add_visited url st) in
          let st2 := (requests_get net url st1).2 in
          match net (requests st) url with
          | Raises e => Some (Returns None, log (CrawlError url e) st2)
          | Response code text =>
              if negb (code =? 200)%Z then
                Some (Returns None, log (FetchFailed url code) st2)
              else
                let soup := clean_html (html_parser text) in
                let saved := save_page unicode_isalnum net os (split_last 47 url) soup st2 in
                match saved.1 with
                | None => Some (Returns None, log (CrawlError url OSError) saved.2)
                | Some folder =>
                    match crawl_links (crawl fuel) (find_all_a_href soup) 0 depth saved.2 with
                    | None => None
                    | Some (Some e, st4) => Some (Returns None, log (CrawlError url e) st4)
                    | Some (None, st4) => Some (Returns (Some folder), st4)
                    end
                end
          end
    end.
Proof.
  unfold crawl. cbn [crawl_page].
  destruct (urljoin _ url0) as [url|]; [|reflexivity].
  destruct (bool_decide _); [reflexivity|].
  unfold requests_get. cbn [requests log emit add_visited snd].
  destruct (net (requests st) url) as [code text|e]; [|reflexivity].
  destruct (negb _); [reflexivity|].
  destruct (save_page _ _ _ _ _ _) as [[folder|] st3]; reflexivity.
Qed.

(** A call only adds to the state: the visited set never loses a URL. *)
Lemma crawl_page_extends fuel : forall url0 depth st o st',
  crawl fuel url0 depth st = Some (o, st') -> extends st st'.
Proof.
  induction fuel as [|fuel IH]; intros url0 depth st o st' H; [discriminate H|].
  rewrite crawl_page_S in H.
  destruct (urljoin _ url0) as [url|]; [|injection H as _ <-; apply extends_refl].
  destruct (bool_decide _); [injection H as _ <-; apply extends_emit|].
  cbv zeta in H.
  assert (E2 : extends st (requests_get net url (log (Crawling url) (add_visited url st))).2).
  { eapply extends_trans; [apply extends_add_visited|].
    eapply extends_trans; [apply extends_emit | apply extends_requests_get]. }
  destruct (net (requests st) url) as [code text|e].
  - destruct (negb _).
    + injection H as _ <-. eapply extends_trans; [exact E2 | apply extends_emit].
    + match type of H with context [save_page ?t ?n ?o ?ti ?so ?s] =>
        pose proof (extends_save_page t n o ti so s) as E3;
        set (saved := save_page t n o ti so s) in * end.
      destruct (saved.1) as [folder|].
      2:{ injection H as _ <-.
          eapply extends_trans; [exact E2|]. eapply extends_trans; [exact E3|].
          apply extends_emit. }
      destruct (crawl_links _ _ _ _ _) as [[[e|] st4]|] eqn:EL; [| |discriminate].
      * injection H as _ <-.
        eapply extends_trans; [exact E2|]. eapply extends_trans; [exact E3|].
        eapply extends_trans; [|apply extends_emit].
        eapply crawl_links_extends; [|exact EL]. exact IH.
      * injection H as _ <-.
        eapply extends_trans; [exact E2|]. eapply extends_trans; [exact E3|].
        eapply crawl_links_extends; [|exact EL]. exact IH.
  - injection H as _ <-. eapply extends_trans; [exact E2 | apply extends_emit].
Qed.

(** After a call has returned, its URL is in the visited set. *)
Lemma crawl_page_marks_visited fuel url0 depth st r st' :
  crawl fuel url0 depth st = Some (Returns r, st') ->
  exists url, urljoin (py"https://en.wikipedia.org/") url0 = Some url /\ url ∈ visited st'.
Proof.
  intros H. pose proof (crawl_page_extends _ _ _ _ _ _ H) as Hext.
  destruct fuel as [|fuel]; [discriminate H|].
  rewrite crawl_page_S in H.
  destruct (urljoin _ url0) as [url|]; [|discriminate H].
  exists url. split; [reflexivity|].
  destruct (bool_decide (url ∈ visited st)) eqn:Hv.
  { injection H as _ <-. apply bool_decide_eq_true in Hv. exact Hv. }
  cbv zeta in H.
  assert (Hin : forall s, extends (requests_get net url (log (Crawling url) (add_visited url st))).2 s ->
                     url ∈ visited s).
  { intros s (Hs & _). apply Hs. simpl. set_solver. }
  destruct (net (requests st) url) as [code text|e].
  - destruct (negb _).
    + injection H as _ <-. apply Hin, extends_emit.
    + match type of H with context [save_page ?t ?n ?o ?ti ?so ?s] =>
        pose proof (extends_save_page t n o ti so s) as E3;
        set (saved := save_page t n o ti so s) in * end.
      destruct (saved.1) as [folder|].
      2:{ injection H as _ <-. apply Hin.
          eapply extends_trans; [exact E3 | apply extends_emit]. }
      destruct (crawl_links _ _ _ _ _) as [[[e|] st4]|] eqn:EL; [| |discriminate].
      * injection H as _ <-. apply Hin.
        eapply extends_trans; [exact E3|]. eapply extends_trans; [|apply extends_emit].
        eapply crawl_links_extends; [|exact EL]. apply crawl_page_extends.
      * injection H as _ <-. apply Hin.
        eapply extends_trans; [exact E3|].
        eapply crawl_links_extends; [|exact EL]. apply crawl_page_extends.
  - injection H as _ <-. apply Hin, extends_emit.
Qed.

(** The depth argument is only ever passed on. *)
Lemma crawl_page_depth fuel : forall url0 d1 d2 st,
  crawl fuel url0 d1 st = crawl fuel url0 d2 st.
Proof.
  induction fuel as [|fuel IH]; intros url0 d1 d2 st; [reflexivity|].
  rewrite !crawl_page_S.
  destruct (urljoin _ url0) as [url|]; [|reflexivity].
  destruct (bool_decide _); [reflexivity|].
  cbv zeta.
  destruct (net (requests st) url) as [code text|e]; [|reflexivity].
  destruct (negb _); [reflexivity|].
  rewrite (crawl_links_depth (crawl fuel) _ IH 0 d1 d2). reflexivity.
Qed.

End CrawlPage.

(** ** The seed scenario: eight article links, two others *)

Example seed_scenario :
  match demo_crawl 2 (py"/wiki/Seed") 0 (new_crawler BASE_ARCHIVE) with
  | Some (Returns (Some folder), st) =>
      folder = py"wiki_archive/Seed" /\
      fetched st = [py"https://en.wikipedia.org/wiki/Seed"; py"https://en.wikipedia.org/wiki/A";
                    py"https://en.wikipedia.org/wiki/B"; py"https://en.wikipedia.org/wiki/C";
                    py"https://en.wikipedia.org/wiki/D"; py"https://en.wikipedia.org/wiki/E"] /\
      written st = [py"wiki_archive/Seed/page.html"; py"wiki_archive/A/page.html";
                    py"wiki_archive/B/page.html"; py"wiki_archive/C/page.html";
                    py"wiki_archive/D/page.html"; py"wiki_archive/E/page.html"]
  | _ => False
  end.
Proof. vm_compute. repeat split. Qed.

(** ** The claims about [crawl_page] *)

(** C1: once [crawl_page(u)] has returned, a second [crawl_page(u)] on the
    same crawler returns [None], and its only effect is the log line
    "Skipping already visited page": no request, no file, the visited set
    unchanged.  Across any call the visited set only grows. *)
Theorem C1_second_crawl_is_skipped tbl net parser urljoin os fuel u d st r st' :
  crawl_page tbl net parser urljoin os fuel u d st = Some (Returns r, st') ->
  (exists url,
     urljoin (py"https://en.wikipedia.org/") u = Some url /\
     url ∈ visited st' /\
     forall fuel' d',
       crawl_page tbl net parser urljoin os (S fuel') u d' st'
       = Some (Returns None,
               Crawler (base_dir st') (visited st') (requests st')
                 (Log (SkipVisited url) :: trace st'))) /\
  (forall fuel0 u0 d0 s o s',
     crawl_page tbl net parser urljoin os fuel0 u0 d0 s = Some (o, s') ->
     visited s ⊆ visited s').
Proof.
  intros H. split.
  - destruct (crawl_page_marks_visited _ _ _ _ _ _ _ _ _ _ _ H) as (url & Hu & Hv).
    exists url. repeat split; auto.
    intros fuel' d'. rewrite crawl_page_S, Hu.
    rewrite bool_decide_eq_true_2 by exact Hv. reflexivity.
  - intros fuel0 u0 d0 s o s' H0.
    apply (crawl_page_extends _ _ _ _ _ _ _ _ _ _ _ H0).
Qed.

Lemma C1_second_crawl_is_skipped_witness :
  demo_crawl 2 (py"/wiki/Seed") 0 (new_crawler BASE_ARCHIVE)
    = Some (Returns (Some (py"wiki_archive/Seed")), seed_run_state) /\
  demo_crawl 1 (py"/wiki/Seed") 0 seed_run_state
    = Some (Returns None,
            Crawler (base_dir seed_run_state) (visited seed_run_state) (requests seed_run_state)
              (Log (SkipVisited (py"https://en.wikipedia.org/wiki/Seed")) :: trace seed_run_state)).
Proof.
  assert (Hrun : demo_crawl 2 (py"/wiki/Seed") 0 (new_crawler BASE_ARCHIVE)
                 = Some (Returns (Some (py"wiki_archive/Seed")), seed_run_state))
    by (vm_compute; reflexivity).
  split; [exact Hrun|].
  destruct (C1_second_crawl_is_skipped (fun _ => false) demo_net demo_parser demo_urljoin
              demo_os 2 (py"/wiki/Seed") 0 (new_crawler BASE_ARCHIVE)
              (Some (py"wiki_archive/Seed")) seed_run_state Hrun) as [(url & Hu & _ & H) _].
  injection Hu as <-. exact (H 0%nat 0%nat).
Defined.

(** C8: when the fetch of a page raises or answers with a status other
    than 200, [crawl_page] returns [None] normally; its effects are the
    "Crawling" line, the one request and the failure line: no directory, no
    file, no further request.  A sublink loop that made the call goes on
    with the next link. *)
Theorem C8_fetch_failure_is_soft tbl net parser urljoin os fuel u url d st :
  urljoin (py"https://en.wikipedia.org/") u = Some url ->
  url ∉ visited st ->
  is_failure (net (requests st) url) = true ->
  let st' := Crawler (base_dir st) ({[url]} ∪ visited st) (S (requests st))
               (Log (failure_log url (net (requests st) url))
                  :: HttpGet url USER_AGENT :: Log (Crawling url) :: trace st) in
  crawl_page tbl net parser urljoin os (S fuel) u d st = Some (Returns None, st') /\
  forall rest count depth,
    crawlable u = true -> (count < SUBLINK_LIMIT)%nat ->
    crawl_links (crawl_page tbl net parser urljoin os (S fuel)) (u :: rest) count depth st
    = crawl_links (crawl_page tbl net parser urljoin os (S fuel)) rest (S count) depth st'.
Proof.
  intros Hu Hv Hf st'.
  assert (H : forall d0, crawl_page tbl net parser urljoin os (S fuel) u d0 st
                    = Some (Returns None, st')).
  { intros d0. rewrite crawl_page_S, Hu.
    rewrite bool_decide_eq_false_2 by exact Hv. cbv zeta.
    subst st'. destruct (net (requests st) url) as [code text|e].
    - cbn [is_failure] in Hf. rewrite Hf. reflexivity.
    - reflexivity. }
  split; [apply H|].
  intros rest count depth Hc Hlt.
  rewrite crawl_links_cons, Hc.
  destruct (Nat.leb_spec SUBLINK_LIMIT count) as [Hge|_]; [lia|].
  rewrite H. reflexivity.
Qed.

Lemma C8_fetch_failure_is_soft_witness :
  demo_crawl 1 (py"/wiki/missing") 0 (new_crawler BASE_ARCHIVE)
  = Some (Returns None,
          Crawler BASE_ARCHIVE {[ py"https://en.wikipedia.org/wiki/missing" ]} 1
            [Log (FetchFailed (py"https://en.wikipedia.org/wiki/missing") 404);
             HttpGet (py"https://en.wikipedia.org/wiki/missing") USER_AGENT;
             Log (Crawling (py"https://en.wikipedia.org/wiki/missing"));
             Makedirs BASE_ARCHIVE]).
Proof.
  destruct (C8_fetch_failure_is_soft (fun _ => false) demo_net demo_parser demo_urljoin
              demo_os 0 (py"/wiki/missing") (py"https://en.wikipedia.org/wiki/missing") 0
              (new_crawler BASE_ARCHIVE)) as [H _].
  - reflexivity.
  - simpl. apply not_elem_of_empty.
  - reflexivity.
  - unfold demo_crawl. rewrite H. vm_compute. reflexivity.
Defined.

(** * Further properties of the crawler *)

(** ** Folder names and paths *)

Lemma safe_char_safe tbl c : safe_char tbl (safe_char tbl c) = safe_char tbl c.
Proof.
  destruct (isalnum tbl c || contains c (py"_-")) eqn:E.
  - assert (H : safe_char tbl c = c) by (unfold safe_char; rewrite E; reflexivity).
    rewrite !H. reflexivity.
  - assert (H : safe_char tbl c = 95) by (unfold safe_char; rewrite E; reflexivity).
    rewrite !H. reflexivity.
Qed.

Lemma safe_char_allowed tbl c :
  isalnum tbl (safe_char tbl c) = true \/ safe_char tbl c = 95 \/ safe_char tbl c = 45.
Proof.
  unfold safe_char.
  destruct (isalnum tbl c) eqn:E; [left; exact E|].
  cbn [orb].
  change (contains c (py"_-")) with ((c =? 95) || ((c =? 45) || false)).
  destruct (N.eqb_spec c 95) as [->|_]; [right; left; reflexivity|].
  destruct (N.eqb_spec c 45) as [->|_]; [right; right; reflexivity|].
  right. left. reflexivity.
Qed.

Lemma isalnum_not_punct tbl c : isalnum tbl c = true -> c <> 47 /\ c <> 46 /\ c <> 92 /\ c <> 58.
Proof.
  intros H. repeat split; intros ->; vm_compute in H; discriminate H.
Qed.

(** X1: The folder name has the length of the title; each of its characters is
    alphanumeric, ['_'] or ['-']; so it contains no ['/'], ['\'], ['.']
    or [':'], whatever the title. *)
Theorem X1_safe_folder_name_charset (tbl : N -> bool) (title : list N) :
  length (safe_folder_name tbl title) = length title /\
  Forall (fun c => isalnum tbl c = true \/ c = 95 \/ c = 45) (safe_folder_name tbl title) /\
  ~ In 47 (safe_folder_name tbl title) /\ ~ In 92 (safe_folder_name tbl title) /\
  ~ In 46 (safe_folder_name tbl title) /\ ~ In 58 (safe_folder_name tbl title).
Proof.
  assert (HF : Forall (fun c => isalnum tbl c = true \/ c = 95 \/ c = 45)
                 (safe_folder_name tbl title)).
  { unfold safe_folder_name. apply Forall_forall. intros c Hin.
    apply list_elem_of_In, in_map_iff in Hin as (c0 & <- & _). apply safe_char_allowed. }
  assert (HN : forall c, In c (safe_folder_name tbl title) ->
                    c <> 47 /\ c <> 46 /\ c <> 92 /\ c <> 58).
  { intros c Hin. rewrite Forall_forall in HF.
    destruct (HF c (proj2 (list_elem_of_In _ _) Hin)) as [H|[->| ->]].
    - apply (isalnum_not_punct tbl c H).
    - repeat split; discriminate.
    - repeat split; discriminate. }
  split; [apply length_map|]. split; [exact HF|].
  repeat split; intros Hin; apply HN in Hin; tauto.
Qed.

(** X2: Cleaning a folder name again changes nothing. *)
Theorem X2_safe_folder_name_idempotent (tbl : N -> bool) (title : list N) :
  safe_folder_name tbl (safe_folder_name tbl title) = safe_folder_name tbl title.
Proof.
  unfold safe_folder_name. rewrite map_map. apply map_ext. intros c. apply safe_char_safe.
Qed.

Lemma split_last_aux_absent c s : forall acc, ~ In c s -> split_last_aux c s acc = acc.
Proof.
  induction s as [|x s IH]; intros acc H; [reflexivity|].
  simpl. destruct (N.eqb_spec c x) as [->|_]; [exfalso; apply H; left; reflexivity|].
  apply IH. intros Hin. apply H. right. exact Hin.
Qed.

Lemma split_last_aux_sep c a b : forall acc,
  ~ In c b -> split_last_aux c (a ++ c :: b) acc = b.
Proof.
  induction a as [|x a IH]; intros acc H.
  - simpl. rewrite N.eqb_refl. apply split_last_aux_absent. exact H.
  - simpl. destruct (c =? x); apply IH; exact H.
Qed.

Lemma split_last_absent c s : ~ In c s -> split_last c s = s.
Proof. apply split_last_aux_absent. Qed.

Lemma split_last_sep c a b : ~ In c b -> split_last c (a ++ c :: b) = b.
Proof. apply split_last_aux_sep. Qed.

Lemma startswith_sep_in b : startswith (py"/") b = true -> In 47 b.
Proof. intros H. apply startswith_spec in H as [r ->]. left. reflexivity. Qed.

(** [os.path.basename(os.path.join(a, b))] is [b] when [b] has no ['/']. *)
Lemma basename_join a b : ~ In 47 b -> split_last 47 (os_path_join a b) = b.
Proof.
  intros Hb. unfold os_path_join.
  destruct (startswith (py"/") b) eqn:E; [apply startswith_sep_in in E; tauto|].
  destruct a as [|x a]; [apply split_last_absent; exact Hb|].
  cbn [orb]. unfold endswith_sep.
  destruct (last (x :: a)) as [c|] eqn:El.
  - destruct (N.eqb_spec c 47) as [->|_].
    + apply last_Some in El as [a' ->]. rewrite <- app_assoc. apply split_last_sep. exact Hb.
    + apply (split_last_sep 47 (x :: a) b Hb).
  - apply (split_last_sep 47 (x :: a) b Hb).
Qed.

Lemma os_path_join_plain a b :
  a <> [] -> endswith_sep a = false -> ~ In 47 b -> os_path_join a b = a ++ py"/" ++ b.
Proof.
  intros Ha He Hb. unfold os_path_join.
  destruct (startswith (py"/") b) eqn:E; [apply startswith_sep_in in E; tauto|].
  rewrite He. destruct a; [congruence | reflexivity].
Qed.

Lemma safe_folder_name_no_sep tbl title : ~ In 47 (safe_folder_name tbl title).
Proof.
  unfold safe_folder_name. intros Hin. apply in_map_iff in Hin as (c & Hc & _).
  destruct (safe_char_allowed tbl c) as [H|[H|H]]; rewrite Hc in H.
  - vm_compute in H. discriminate H.
  - discriminate H.
  - discriminate H.
Qed.

(** ** [save_page]: what is written, and where *)

Section SavePageEvents.

Variable tbl : N -> bool.
Variable net : nat -> list N -> reply.
Variable os : list event -> event -> bool.

(** Every event of the image loop is a request for a source of the page
    with the fixed user agent, an image file in the image folder, or one of
    the two log lines of the loop. *)
Lemma save_images_events title dir images : forall i c st,
  exists evs,
    trace (save_images net os title dir images i c st) = evs ++ trace st /\
    Forall (image_event dir images) evs.
Proof.
  induction images as [|img rest IH]; intros i c st.
  - exists []. split; [reflexivity | constructor].
  - assert (Hweak : forall evs, Forall (image_event dir rest) evs ->
                             Forall (image_event dir (img :: rest)) evs).
    { intros evs HF. eapply Forall_impl; [exact HF|].
      intros [u ua|p|p [s|b]|[]] H; simpl in *; try tauto.
      - destruct H as (Hua & src & Hin & Hs & Hu). split; [exact Hua|].
        exists src. repeat split; auto.
      - destruct H as (j & src & Hin & Hp). exists j, src. split; auto. }
    rewrite save_images_cons.
    destruct (IMAGE_LIMIT <=? c)%nat.
    { exists []. split; [reflexivity | constructor]. }
    destruct img as [[|a src]|].
    + destruct (IH (S i) c st) as (evs & H1 & H2). exists evs. split; auto.
    + cbv zeta. unfold requests_get.
      destruct (net (requests st) (resolve_src (a :: src))) as [code content|e].
      * destruct (code =? 200)%Z; [destruct (os _ _)|].
        -- match goal with |- context [save_images net os title dir rest ?i1 ?c1 ?s] =>
             destruct (IH i1 c1 s) as (evs & H1 & H2) end.
           exists (evs ++ [Log (DownloadedImage (image_fname i (resolve_src (a :: src))) title);
                           WriteFile (os_path_join dir (image_fname i (resolve_src (a :: src))))
                             (BytesOf content);
                           HttpGet (resolve_src (a :: src)) USER_AGENT]).
           split; [rewrite H1, <- app_assoc; reflexivity|].
           apply Forall_app. split; [apply Hweak, H2|].
           repeat constructor.
           ++ exists i, (a :: src). split; [left; reflexivity | reflexivity].
           ++ exists (a :: src). repeat split; [left; reflexivity | discriminate].
        -- match goal with |- context [save_images net os title dir rest ?i1 ?c1 ?s] =>
             destruct (IH i1 c1 s) as (evs & H1 & H2) end.
           exists (evs ++ [Log (ImageFailed (resolve_src (a :: src)) OSError);
                           HttpGet (resolve_src (a :: src)) USER_AGENT]).
           split; [rewrite H1, <- app_assoc; reflexivity|].
           apply Forall_app. split; [apply Hweak, H2|].
           repeat constructor.
           exists (a :: src). repeat split; [left; reflexivity | discriminate].
        -- match goal with |- context [save_images net os title dir rest ?i1 ?c1 ?s] =>
             destruct (IH i1 c1 s) as (evs & H1 & H2) end.
           exists (evs ++ [HttpGet (resolve_src (a :: src)) USER_AGENT]).
           split; [rewrite H1, <- app_assoc; reflexivity|].
           apply Forall_app. split; [apply Hweak, H2|].
           repeat constructor.
           exists (a :: src). repeat split; [left; reflexivity | discriminate].
      * match goal with |- context [save_images net os title dir rest ?i1 ?c1 ?s] =>
          destruct (IH i1 c1 s) as (evs & H1 & H2) end.
        exists (evs ++ [Log (ImageFailed (resolve_src (a :: src)) e);
                        HttpGet (resolve_src (a :: src)) USER_AGENT]).
        split; [rewrite H1, <- app_assoc; reflexivity|].
        apply Forall_app. split; [apply Hweak, H2|].
        repeat constructor.
        exists (a :: src). repeat split; [left; reflexivity | discriminate].
    + destruct (IH (S i) c st) as (evs & H1 & H2). exists evs. split; auto.
Qed.

Lemma image_paths_app a b : image_paths (a ++ b) = image_paths a ++ image_paths b.
Proof. unfold image_paths. apply omap_app. Qed.

Lemma image_paths_In p evs :
  In p (image_paths evs) -> exists data, In (WriteFile p (BytesOf data)) evs.
Proof.
  unfold image_paths. intros H. apply list_elem_of_In, list_elem_of_omap in H.
  destruct H as (e & He & Hp). apply list_elem_of_In in He.
  destruct e as [| |q [s|b]|]; try discriminate Hp.
  injection Hp as ->. exists b. exact He.
Qed.

(** The image files written by one run of the loop have pairwise distinct
    paths. *)
Lemma save_images_paths_nodup title dir images : forall i c st evs,
  trace (save_images net os title dir images i c st) = evs ++ trace st ->
  NoDup (image_paths evs).
Proof.
  induction images as [|img rest IH]; intros i c st evs Htr.
  - simpl in Htr. apply (app_inv_tail _ [] evs) in Htr. subst evs. constructor.
  - assert (Hstep : forall st1 new c1,
              trace st1 = new ++ trace st ->
              save_images net os title dir (img :: rest) i c st
                = save_images net os title dir rest (S i) c1 st1 ->
              (forall p, In p (image_paths new) ->
                 image_paths new = [p] /\
                 exists src, p = os_path_join dir (image_fname i src)) ->
              image_paths new = [] \/ (exists p, image_paths new = [p]) ->
              NoDup (image_paths evs)).
    { intros st1 new c1 Hst1 Heq Hnew Hshape.
      destruct (save_images_effects net os title dir rest (S i) c1 st1) as (evs' & Hevs' & _).
      pose proof Hevs' as Hevs2.
      rewrite Heq, Hevs', Hst1, app_assoc in Htr.
      apply app_inv_tail in Htr. subst evs.
      rewrite image_paths_app. apply NoDup_app. split; [eapply IH; exact Hevs2|]. split.
      - intros p Hp Hp'. apply list_elem_of_In in Hp, Hp'.
        destruct (Hnew p Hp') as (_ & src & Hsrc).
        apply image_paths_In in Hp as (data & Hin).
        destruct (save_images_written net os title dir rest (S i) c1 st1 evs' p _ Hevs2 Hin)
          as (j & src' & Hj & _ & _ & Hpj).
        rewrite Hsrc in Hpj. apply os_path_join_fname_inj in Hpj. lia.
      - destruct Hshape as [-> | [p ->]]; [constructor|].
        apply NoDup_singleton. }
    rewrite save_images_cons in Hstep.
    destruct (Nat.leb_spec IMAGE_LIMIT c) as [Hge|Hlt].
    { rewrite save_images_at_limit in Htr by exact Hge.
      apply (app_inv_tail _ [] evs) in Htr. subst evs. constructor. }
    destruct img as [[|a src]|].
    + apply (Hstep st [] c eq_refl eq_refl); [intros p [] | left; reflexivity].
    + cbv zeta in Hstep. unfold requests_get in Hstep.
      destruct (net (requests st) (resolve_src (a :: src))) as [code content|e].
      * destruct (code =? 200)%Z; [destruct (os _ _)|].
        -- match type of Hstep with context [save_images net os title dir rest ?i1 ?c1 ?s] =>
             apply (Hstep s (take 3 (trace s)) c1 eq_refl eq_refl) end.
           ++ intros p [<-|[]]. split; [reflexivity|]. eexists. reflexivity.
           ++ right. eexists. reflexivity.
        -- match type of Hstep with context [save_images net os title dir rest ?i1 ?c1 ?s] =>
             apply (Hstep s (take 2 (trace s)) c1 eq_refl eq_refl) end;
             [intros p [] | left; reflexivity].
        -- match type of Hstep with context [save_images net os title dir rest ?i1 ?c1 ?s] =>
             apply (Hstep s (take 1 (trace s)) c1 eq_refl eq_refl) end;
             [intros p [] | left; reflexivity].
      * match type of Hstep with context [save_images net os title dir rest ?i1 ?c1 ?s] =>
          apply (Hstep s (take 2 (trace s)) c1 eq_refl eq_refl) end;
          [intros p [] | left; reflexivity].
    + apply (Hstep st [] c eq_refl eq_refl); [intros p [] | left; reflexivity].
Qed.

(** [save_page] first makes the folder, writes [page.html], logs and makes
    the image folder; everything after that belongs to the image loop.
    When one of the three operations raises, [save_page] ends there. *)
Lemma save_page_events title soup st :
  let folder := os_path_join (base_dir st) (safe_folder_name tbl title) in
  let made := Makedirs folder in
  let page := WriteFile (os_path_join folder (py"page.html")) (HtmlOf soup) in
  let images := Makedirs (os_path_join folder (py"images")) in
  match (save_page tbl net os title soup st).1 with
  | Some f =>
      f = folder /\
      os (trace st) made = true /\
      os (made :: trace st) page = true /\
      os (Log (SavedHtml title) :: page :: made :: trace st) images = true /\
      exists evs,
        trace (save_page tbl net os title soup st).2 =
          evs ++ [images; Log (SavedHtml title); page; made] ++ trace st /\
        Forall (image_event (os_path_join folder (py"images")) (find_all_img_src soup)) evs /\
        (length (List.filter is_http_get evs) <= length (find_all_img_src soup))%nat /\
        NoDup (image_paths evs)
  | None =>
      requests (save_page tbl net os title soup st).2 = requests st /\
      ((os (trace st) made = false /\
        trace (save_page tbl net os title soup st).2 = trace st) \/
       (os (made :: trace st) page = false /\
        trace (save_page tbl net os title soup st).2 = made :: trace st) \/
       (os (Log (SavedHtml title) :: page :: made :: trace st) images = false /\
        trace (save_page tbl net os title soup st).2
          = [Log (SavedHtml title); page; made] ++ trace st))
  end.
Proof.
  intros folder made page images.
  unfold save_page. cbv zeta. fold folder. fold made. fold page. fold images.
  cbn [emit log trace base_dir visited requests].
  destruct (os (trace st) made) eqn:E1; cbn [negb fst snd];
    [|split; [reflexivity | left; split; reflexivity]].
  destruct (os (made :: trace st) page) eqn:E2; cbn [negb fst snd];
    [|split; [reflexivity | right; left; split; reflexivity]].
  destruct (os (Log (SavedHtml title) :: page :: made :: trace st) images) eqn:E3;
    cbn [negb fst snd];
    [|split; [reflexivity | right; right; split; reflexivity]].
  repeat (split; [reflexivity|]).
  match goal with |- context [save_images net os title ?d ?l 0 0 ?s] =>
    destruct (save_images_events title d l 0%nat 0%nat s) as (evs & H1 & H2);
    destruct (save_images_effects net os title d l 0%nat 0%nat s)
      as (evs' & H1' & _ & H3 & _);
    pose proof (save_images_paths_nodup title d l 0%nat 0%nat s evs H1) as H4 end.
  rewrite H1 in H1'. apply app_inv_tail in H1'. subst evs'.
  exists evs. repeat split; assumption.
Qed.

(** X3: The archive folder of a page is the folder named after the cleaned
    title, directly under the base directory: the title cannot direct the
    save anywhere else.  [save_page] returns that folder unless the file
    system refuses one of its three operations on it. *)
Theorem X3_folder_directly_under_base title soup st :
  base_dir st <> [] -> endswith_sep (base_dir st) = false ->
  let folder := base_dir st ++ py"/" ++ safe_folder_name tbl title in
  split_last 47 folder = safe_folder_name tbl title /\
  ~ In 47 (safe_folder_name tbl title) /\
  ((save_page tbl net os title soup st).1 = Some folder \/
   (save_page tbl net os title soup st).1 = None) /\
  (os (trace st) (Makedirs folder) = false ->
   (save_page tbl net os title soup st).1 = None /\
   trace (save_page tbl net os title soup st).2 = trace st).
Proof.
  intros Hb He folder.
  pose proof (safe_folder_name_no_sep tbl title) as Hs.
  assert (Hf : os_path_join (base_dir st) (safe_folder_name tbl title) = folder)
    by (apply os_path_join_plain; assumption).
  split; [rewrite <- Hf; apply basename_join; exact Hs|].
  split; [exact Hs|].
  pose proof (save_page_events title soup st) as H. cbv zeta in H. rewrite Hf in H.
  split.
  - destruct (save_page tbl net os title soup st).1 as [f|]; [left | right; reflexivity].
    destruct H as [-> _]. reflexivity.
  - intros Hos.
    destruct (save_page tbl net os title soup st).1 as [f|].
    + destruct H as (_ & H & _). congruence.
    + split; [reflexivity|]. unfold save_page. cbv zeta. rewrite Hf, Hos. reflexivity.
Qed.

End SavePageEvents.

Lemma X3_folder_directly_under_base_witness :
  (save_page (fun _ => false) demo_net demo_os (py"../a/b") [] (new_crawler BASE_ARCHIVE)).1
  = Some (py"wiki_archive/___a_b") /\
  (save_page (fun _ => false) demo_net demo_os (repeat 120 256) [] (new_crawler BASE_ARCHIVE)).1
  = None.
Proof.
  split.
  - destruct (X3_folder_directly_under_base (fun _ => false) demo_net demo_os (py"../a/b") []
                (new_crawler BASE_ARCHIVE)) as (_ & _ & [H|H] & _).
    + discriminate.
    + reflexivity.
    + exact H.
    + vm_compute in H. discriminate H.
  - destruct (X3_folder_directly_under_base (fun _ => false) demo_net demo_os (repeat 120 256) []
                (new_crawler BASE_ARCHIVE)) as (_ & _ & _ & H).
    + discriminate.
    + reflexivity.
    + apply H. vm_compute. reflexivity.
Defined.

Section SavePageTheorems.

Variable tbl : N -> bool.
Variable net : nat -> list N -> reply.
Variable os : list event -> event -> bool.

(** X4: A URL that ends in ['/'] has the empty title.  With the empty title
    the page is saved into the base directory itself: [page.html] and the
    [images] folder are put directly in it.  This is what a save that
    returns has done, and the save returns when the file system carries out
    its three operations. *)
Theorem X4_empty_title_saved_in_base url soup st :
  base_dir st <> [] -> endswith_sep (base_dir st) = false ->
  let made := Makedirs (base_dir st ++ py"/") in
  let page := WriteFile (base_dir st ++ py"/page.html") (HtmlOf soup) in
  let images := Makedirs (base_dir st ++ py"/images") in
  split_last 47 (url ++ py"/") = [] /\
  (forall folder, (save_page tbl net os [] soup st).1 = Some folder ->
     folder = base_dir st ++ py"/" /\
     In page (trace (save_page tbl net os [] soup st).2) /\
     In images (trace (save_page tbl net os [] soup st).2)) /\
  (os (trace st) made = true -> os (made :: trace st) page = true ->
   os (Log (SavedHtml []) :: page :: made :: trace st) images = true ->
   (save_page tbl net os [] soup st).1 = Some (base_dir st ++ py"/")).
Proof.
  intros Hb He made page images.
  split; [apply (split_last_sep 47 url []); intros []|].
  assert (Hf : os_path_join (base_dir st) (safe_folder_name tbl []) = base_dir st ++ py"/").
  { apply os_path_join_plain; auto. }
  assert (Hj : forall b, startswith (py"/") b = false ->
                    os_path_join (base_dir st ++ py"/") b = base_dir st ++ py"/" ++ b).
  { intros b Hsb. unfold os_path_join. rewrite Hsb.
    replace (endswith_sep (base_dir st ++ py"/")) with true.
    - rewrite orb_true_r, <- app_assoc. reflexivity.
    - unfold endswith_sep. change (py"/") with [47]. rewrite last_snoc. reflexivity. }
  pose proof (save_page_events tbl net os [] soup st) as H. cbv zeta in H.
  rewrite Hf in H. rewrite !Hj in H by reflexivity.
  change (base_dir st ++ py"/" ++ py"page.html") with (base_dir st ++ py"/page.html") in H.
  change (base_dir st ++ py"/" ++ py"images") with (base_dir st ++ py"/images") in H.
  fold made in H. fold page in H. fold images in H.
  split.
  - intros folder Hfolder. rewrite Hfolder in H.
    destruct H as (-> & _ & _ & _ & evs & Htr & _).
    split; [reflexivity|]. rewrite Htr.
    split; apply in_or_app; right; simpl; tauto.
  - intros H1 H2 H3.
    destruct (save_page tbl net os [] soup st).1 as [f|].
    + destruct H as [-> _]. reflexivity.
    + destruct H as (_ & [[H _]|[[H _]|[H _]]]); congruence.
Qed.

(** X5: a [save_page] that returns has made the folder, written [page.html]
    with the given document, logged, and made the image folder, in this
    order and before the first image is requested; the image loop makes no
    directory and writes no document.  A [save_page] that raises has sent
    no request.  In both cases the visited set is unchanged. *)
Theorem X5_page_html_written_first title soup st :
  let folder := os_path_join (base_dir st) (safe_folder_name tbl title) in
  let made := Makedirs folder in
  let page := WriteFile (os_path_join folder (py"page.html")) (HtmlOf soup) in
  let images := Makedirs (os_path_join folder (py"images")) in
  (forall f, (save_page tbl net os title soup st).1 = Some f ->
     f = folder /\
     exists evs,
       trace (save_page tbl net os title soup st).2 =
         evs ++ [images; Log (SavedHtml title); page; made] ++ trace st /\
       (forall e, In e evs ->
          match e with Makedirs _ | WriteFile _ (HtmlOf _) => False | _ => True end)) /\
  ((save_page tbl net os title soup st).1 = None ->
     requests (save_page tbl net os title soup st).2 = requests st /\
     (trace (save_page tbl net os title soup st).2 = trace st \/
      trace (save_page tbl net os title soup st).2 = made :: trace st \/
      trace (save_page tbl net os title soup st).2
        = [Log (SavedHtml title); page; made] ++ trace st)) /\
  ((save_page tbl net os title soup st).1 <> None <->
     os (trace st) made = true /\ os (made :: trace st) page = true /\
     os (Log (SavedHtml title) :: page :: made :: trace st) images = true) /\
  visited (save_page tbl net os title soup st).2 = visited st.
Proof.
  intros folder made page images.
  pose proof (save_page_events tbl net os title soup st) as H. cbv zeta in H.
  fold folder in H. fold made in H. fold page in H. fold images in H.
  destruct (save_page_effects tbl net os title soup st) as (_ & _ & _ & _ & Hv & _).
  split; [|split; [|split; [|exact Hv]]].
  - intros f Hf. rewrite Hf in H.
    destruct H as (-> & _ & _ & _ & evs & Htr & HF & _).
    split; [reflexivity|]. exists evs. split; [exact Htr|].
    intros e He. rewrite Forall_forall in HF.
    specialize (HF e (proj2 (list_elem_of_In _ _) He)).
    destruct e as [| |p [s|b]|]; simpl in HF; tauto.
  - intros Hn. rewrite Hn in H. destruct H as (Hr & Hc).
    split; [exact Hr|]. tauto.
  - destruct (save_page tbl net os title soup st).1 as [f|].
    + destruct H as (_ & H1 & H2 & H3 & _). split; [tauto | discriminate].
    + split; [congruence|]. intros (H1 & H2 & H3).
      destruct H as (_ & [[H _]|[[H _]|[H _]]]); congruence.
Qed.

(** X6: Every request of [save_page] carries the fixed user agent and asks for
    the resolved, non-empty [src] of an [img] element of the document; there
    is at most one request per [img] element, so none for a page without
    images. *)
Theorem X6_save_page_requests title soup st :
  exists evs,
    trace (save_page tbl net os title soup st).2 = evs ++ trace st /\
    (forall u ua, In (HttpGet u ua) evs ->
       ua = USER_AGENT /\
       exists src, In (Some src) (find_all_img_src soup) /\ src <> [] /\ u = resolve_src src) /\
    (length (List.filter is_http_get evs) <= length (find_all_img_src soup))%nat.
Proof.
  pose proof (save_page_events tbl net os title soup st) as H. cbv zeta in H.
  destruct (save_page tbl net os title soup st).1 as [f|].
  - destruct H as (_ & _ & _ & _ & evs & Htr & HF & Hlen & _).
    eexists (evs ++ [_; _; _; _]). split; [rewrite Htr, app_assoc; reflexivity|]. split.
    + intros u ua Hin. apply in_app_or in Hin as [Hin|Hin].
      * rewrite Forall_forall in HF.
        exact (HF _ (proj2 (list_elem_of_In _ _) Hin)).
      * simpl in Hin. intuition discriminate.
    + rewrite List.filter_app, length_app.
      change (List.filter is_http_get [_; _; _; _]) with (@nil event).
      simpl length. lia.
  - destruct H as (_ & [[_ Htr]|[[_ Htr]|[_ Htr]]]).
    + exists []. split; [exact Htr|]. split; [intros u ua []|simpl; lia].
    + eexists [_]. split; [exact Htr|].
      split; [intros u ua Hin; simpl in Hin; intuition discriminate | simpl; lia].
    + eexists [_; _; _]. split; [exact Htr|].
      split; [intros u ua Hin; simpl in Hin; intuition discriminate | simpl; lia].
Qed.

(** X7: The image files of one page save have pairwise distinct paths: no
    image overwrites another image of the same page. *)
Theorem X7_image_files_distinct title soup st :
  exists evs,
    trace (save_page tbl net os title soup st).2 = evs ++ trace st /\
    NoDup (image_paths evs).
Proof.
  pose proof (save_page_events tbl net os title soup st) as H. cbv zeta in H.
  destruct (save_page tbl net os title soup st).1 as [f|].
  - destruct H as (_ & _ & _ & _ & evs & Htr & _ & _ & Hnd).
    eexists (evs ++ [_; _; _; _]). split; [rewrite Htr, app_assoc; reflexivity|].
    rewrite image_paths_app.
    change (image_paths [_; _; _; _]) with (@nil (list N)). rewrite app_nil_r. exact Hnd.
  - destruct H as (_ & [[_ Htr]|[[_ Htr]|[_ Htr]]]).
    + exists []. split; [exact Htr | constructor].
    + eexists [_]. split; [exact Htr | constructor].
    + eexists [_; _; _]. split; [exact Htr | constructor].
Qed.

End SavePageTheorems.

Lemma X4_empty_title_saved_in_base_witness :
  In (WriteFile (py"wiki_archive/page.html") (HtmlOf []))
     (trace (save_page (fun _ => false) demo_net demo_os
               (split_last 47 (py"https://en.wikipedia.org/wiki/")) []
               (new_crawler BASE_ARCHIVE)).2).
Proof.
  destruct (X4_empty_title_saved_in_base (fun _ => false) demo_net demo_os
              (py"https://en.wikipedia.org/wiki") [] (new_crawler BASE_ARCHIVE))
    as (_ & H & Hret).
  - discriminate.
  - reflexivity.
  - apply (H (py"wiki_archive/")). apply Hret; reflexivity.
Defined.

(** ** [clean_html]: what is removed and what is kept *)

Lemma filter_none_In {A} (f : A -> bool) (l : list A) :
  (forall x, In x l -> f x = false) -> List.filter f l = [].
Proof.
  induction l as [|x l IH]; intros H; [reflexivity|].
  cbn [List.filter]. rewrite (H x) by (left; reflexivity).
  apply IH. intros y Hy. apply H. right. exact Hy.
Qed.

Section DetachKeepsOrder.

Context {B : Type} (g : node -> option B) (o : nat).
Hypothesis g_shallow : forall n, g (detach_in o n) = g n.

Lemma omap_descendants_cons c soup :
  omap g (descendants (c :: soup))
  = omap g [c] ++ omap g (descendants_of c) ++ omap g (descendants soup).
Proof.
  rewrite descendants_cons. change (c :: descendants_of c ++ descendants soup)
    with ([c] ++ descendants_of c ++ descendants soup).
  rewrite !omap_app. reflexivity.
Qed.

Lemma omap_detach_list cs :
  Forall (fun c => omap g (descendants_of (detach_in o c)) `sublist_of`
                   omap g (descendants_of c)) cs ->
  omap g (descendants (detach o cs)) `sublist_of` omap g (descendants cs).
Proof.
  unfold detach. induction 1 as [|c cs Hc _ IH]; [reflexivity|].
  rewrite omap_descendants_cons. cbn [map List.filter].
  destruct (negb (Nat.eqb (node_oid (detach_in o c)) o)).
  - rewrite omap_descendants_cons.
    apply sublist_app; [|apply sublist_app; [exact Hc | exact IH]].
    cbn [omap list_omap]. rewrite g_shallow. reflexivity.
  - apply sublist_inserts_l, sublist_inserts_l. exact IH.
Qed.

Lemma omap_detach_in n :
  omap g (descendants_of (detach_in o n)) `sublist_of` omap g (descendants_of n).
Proof.
  induction n as [i name cl at_ cs IH|i s|i s] using node_ind; try reflexivity.
  cbn [detach_in]. rewrite !descendants_of_tag. exact (omap_detach_list cs IH).
Qed.

Lemma omap_detach soup :
  omap g (descendants (detach o soup)) `sublist_of` omap g (descendants soup).
Proof.
  apply omap_detach_list. apply Forall_forall. intros c _. apply omap_detach_in.
Qed.

End DetachKeepsOrder.

Lemma omap_detach_all {B} (g : node -> option B) :
  (forall o n, g (detach_in o n) = g n) ->
  forall l soup,
    omap g (descendants (fold_left (fun s o => detach o s) l soup))
      `sublist_of` omap g (descendants soup).
Proof.
  intros Hg l. induction l as [|o l IH]; intros soup; [reflexivity|].
  cbn [fold_left]. etransitivity; [apply IH|]. apply omap_detach. apply Hg.
Qed.

(** X8: No element that matches one of the selectors is left in the cleaned
    tree, at any depth, also when such elements were nested in each other. *)
Theorem X8_clean_html_removes_selected (soup : list node) (n : node) :
  In n (descendants (clean_html soup)) -> matches_denylist n = false.
Proof. apply clean_html_no_boilerplate. Qed.

Lemma X8_clean_html_removes_selected_witness :
  matches_denylist (Tag 5 (py"p") [py"lead"] ∅ [NavigableString 6 (py"text")]) = false.
Proof.
  apply (X8_clean_html_removes_selected demo_nested).
  vm_compute. left. reflexivity.
Defined.

(** X9: Cleaning a cleaned tree changes nothing. *)
Theorem X9_clean_html_idempotent (soup : list node) :
  clean_html (clean_html soup) = clean_html soup.
Proof.
  apply clean_html_without_boilerplate.
  unfold select_denylist. rewrite filter_none_In; [reflexivity|].
  intros n Hn. apply (clean_html_no_boilerplate soup n Hn).
Qed.

(** X10: Cleaning adds nothing and keeps the document order: the links and the
    image sources of the cleaned tree are those of the parsed page with
    some left out. *)
Theorem X10_clean_html_keeps_order (soup : list node) :
  find_all_a_href (clean_html soup) `sublist_of` find_all_a_href soup /\
  find_all_img_src (clean_html soup) `sublist_of` find_all_img_src soup.
Proof.
  rewrite clean_html_only_selectors. unfold find_all_a_href, find_all_img_src.
  split; apply omap_detach_all; intros o [i name cl at_ cs|i s|i s]; reflexivity.
Qed.

(** X11: The comment pass selects nothing, for any document: [clean_html] is
    the removal of the selected elements and no more, and a document
    without such elements comes back unchanged, comments included. *)
Theorem X11_clean_html_comment_pass_inert (soup : list node) :
  clean_html soup = fold_left (fun s o => detach o s) (select_denylist soup) soup /\
  (select_denylist soup = [] -> clean_html soup = soup).
Proof.
  split; [apply clean_html_only_selectors | apply clean_html_without_boilerplate].
Qed.

Lemma X11_clean_html_comment_pass_inert_witness :
  clean_html [Comment 1 (py"c"); Tag 2 (py"b") [] ∅ [Comment 3 (py"d")]]
  = [Comment 1 (py"c"); Tag 2 (py"b") [] ∅ [Comment 3 (py"d")]].
Proof.
  apply (X11_clean_html_comment_pass_inert
           [Comment 1 (py"c"); Tag 2 (py"b") [] ∅ [Comment 3 (py"d")]]).
  reflexivity.
Defined.

(** ** File names have no ['/'] *)

Lemma rfind_aux_after c s : forall i found,
  (rfind_aux c s i found = found /\ ~ In c s) \/
  ((i <= rfind_aux c s i found)%Z /\
   ~ In c (drop (S (Z.to_nat (rfind_aux c s i found - i))) s)).
Proof.
  induction s as [|b s IH]; intros i found; [left; split; [reflexivity | intros []]|].
  cbn [rfind_aux].
  destruct (IH (i + 1)%Z (if c =? b then i else found)) as [[Hr Hn]|[Hle Hn]].
  - rewrite Hr. destruct (N.eqb_spec c b) as [->|Hcb].
    + right. split; [lia|]. rewrite Z.sub_diag. exact Hn.
    + left. split; [reflexivity|]. intros [E|E]; [congruence | tauto].
  - right. split; [lia|].
    replace (S (Z.to_nat (rfind_aux c s (i + 1) (if c =? b then i else found) - i)))
      with (S (S (Z.to_nat (rfind_aux c s (i + 1) (if c =? b then i else found) - (i + 1)))))
      by lia.
    exact Hn.
Qed.

Lemma drop_In {A} (x : A) k l : In x (drop k l) -> In x l.
Proof.
  intros H. apply list_elem_of_In. apply list_elem_of_In in H.
  eapply subseteq_drop. exact H.
Qed.

Lemma rfind_after c s k : (rfind c s < k)%Z -> ~ In c (drop (Z.to_nat k) s).
Proof.
  intros Hk Hin. unfold rfind in Hk.
  destruct (rfind_aux_after c s 0 (-1)) as [[_ Hn]|[Hle Hn]].
  - apply Hn. eapply drop_In. exact Hin.
  - apply Hn. rewrite Z.sub_0_r.
    replace (Z.to_nat k) with
      (S (Z.to_nat (rfind_aux c s 0 (-1))) + (Z.to_nat k - S (Z.to_nat (rfind_aux c s 0 (-1)))))%nat
      in Hin by lia.
    rewrite <- drop_drop in Hin. eapply drop_In. exact Hin.
Qed.

Lemma splitext_ext_no_sep p : ~ In 47 (splitext_ext p).
Proof.
  unfold splitext_ext.
  destruct (Z.ltb_spec (rfind 47 p) (rfind 46 p)) as [Hlt|_]; [|intros []].
  destruct (existsb _ _); [|intros []].
  apply rfind_after. exact Hlt.
Qed.

Lemma split_head_In c x s : In x (split_head c s) -> In x s.
Proof.
  induction s as [|b s IH]; [intros []|].
  simpl. destruct (c =? b); [intros []|].
  intros [->|H]; [left; reflexivity | right; apply IH; exact H].
Qed.

Lemma image_fname_no_sep i src : ~ In 47 (image_fname i src).
Proof.
  unfold image_fname. intros H.
  apply in_app_or in H as [H|H]; [vm_compute in H; intuition discriminate|].
  apply in_app_or in H as [H|H].
  - pose proof (digits_are_digits (Nat.to_uint i)) as Hd.
    rewrite forallb_forall in Hd. apply Hd in H. vm_compute in H. discriminate H.
  - apply split_head_In in H. exact (splitext_ext_no_sep _ H).
Qed.

Lemma image_fname_basename dir i src :
  split_last 47 (os_path_join dir (image_fname i src)) = image_fname i src.
Proof. apply basename_join, image_fname_no_sep. Qed.

(** ** [crawl_page]: invariants of a crawl *)

Lemma crawled_app a b : crawled (a ++ b) = crawled a ++ crawled b.
Proof. unfold crawled. apply omap_app. Qed.

Lemma image_events_not_crawled dir images evs :
  Forall (image_event dir images) evs -> crawled evs = [].
Proof.
  induction 1 as [|e evs He _ IH]; [reflexivity|].
  change (e :: evs) with ([e] ++ evs). rewrite crawled_app, IH, app_nil_r.
  destruct e as [| | |[]]; simpl in He; try reflexivity; destruct He.
Qed.

Lemma image_events_archive dir images evs :
  Forall (image_event dir images) evs -> Forall archive_event evs.
Proof.
  intros H. eapply Forall_impl; [exact H|].
  intros [u ua|p|p [s|b]|m] He; simpl in *; try tauto.
  destruct He as (j & src & _ & ->). rewrite image_fname_basename. reflexivity.
Qed.

Section CrawlInvariants.

Variable tbl : N -> bool.
Variable net : nat -> list N -> reply.
Variable parser : list N -> list node.
Variable urljoin : list N -> list N -> option (list N).
Variable os : list event -> event -> bool.

Local Abbreviation crawl := (crawl_page tbl net parser urljoin os).

(** The state after [save_page], seen from the state before it. *)
Lemma save_page_summary title soup st :
  exists evs,
    trace (save_page tbl net os title soup st).2 = evs ++ trace st /\
    Forall archive_event evs /\
    crawled evs = [] /\
    (forall folder, (save_page tbl net os title soup st).1 = Some folder ->
       folder = os_path_join (base_dir st) (safe_folder_name tbl title) /\
       In (WriteFile (os_path_join folder (py"page.html")) (HtmlOf soup)) evs) /\
    visited (save_page tbl net os title soup st).2 = visited st.
Proof.
  pose proof (save_page_events tbl net os title soup st) as H. cbv zeta in H.
  destruct (save_page_effects tbl net os title soup st) as (_ & _ & _ & _ & Hv & _).
  assert (Hpage : forall folder so,
            archive_event (WriteFile (os_path_join folder (py"page.html")) (HtmlOf so))).
  { intros folder so. cbn [archive_event].
    apply basename_join. intros Hsep. apply contains_spec in Hsep.
    vm_compute in Hsep. discriminate Hsep. }
  destruct (save_page tbl net os title soup st).1 as [f|].
  - destruct H as (-> & _ & _ & _ & evs & Htr & HF & _).
    eexists (evs ++ [_; _; _; _]). split; [rewrite Htr, app_assoc; reflexivity|].
    split; [|split; [|split; [|exact Hv]]].
    + apply Forall_app. split; [eapply image_events_archive; exact HF|].
      repeat constructor. apply Hpage.
    + rewrite crawled_app, (image_events_not_crawled _ _ _ HF). reflexivity.
    + intros folder Hfolder. injection Hfolder as <-. split; [reflexivity|].
      apply in_or_app. right. right. right. left. reflexivity.
  - destruct H as (_ & [[_ Htr]|[[_ Htr]|[_ Htr]]]).
    + exists []. split; [exact Htr|].
      repeat split; [constructor | discriminate | discriminate | exact Hv].
    + eexists [_]. split; [exact Htr|].
      repeat split; [repeat constructor | discriminate | discriminate | exact Hv].
    + eexists [_; _; _]. split; [exact Htr|].
      repeat split; [repeat constructor; apply Hpage | discriminate | discriminate | exact Hv].
Qed.

(** A property of states that every step of a crawl keeps is kept by the
    sublink loop. *)
Lemma crawl_links_keeps (I : crawler -> crawler -> Prop) f links :
  (forall st, I st st) ->
  (forall a b c, I a b -> I b c -> I a c) ->
  (forall href d s o s', f href d s = Some (o, s') -> I s s') ->
  forall count depth st e st',
    crawl_links f links count depth st = Some (e, st') -> I st st'.
Proof.
  intros Hrefl Htrans Hf. induction links as [|href rest IH]; intros count depth st e st' H.
  - injection H as _ <-. apply Hrefl.
  - rewrite crawl_links_cons in H.
    destruct (crawlable href); [|eapply IH; exact H].
    destruct (SUBLINK_LIMIT <=? count)%nat.
    { injection H as _ <-. apply Hrefl. }
    destruct (f href (depth + 1)%nat st) as [[[r|ex] s1]|] eqn:E; [| |discriminate].
    + eapply Htrans; [eapply Hf; exact E | eapply IH; exact H].
    + injection H as _ <-. eapply Hf; exact E.
Qed.

(** All events of a crawl follow the archive layout. *)
Lemma crawl_page_archive_events fuel : forall u d st o st',
  crawl fuel u d st = Some (o, st') ->
  exists evs, trace st' = evs ++ trace st /\ Forall archive_event evs.
Proof.
  set (I := fun s s' : crawler => exists evs, trace s' = evs ++ trace s /\ Forall archive_event evs).
  assert (Hrefl : forall s, I s s) by (intros s; exists []; split; [reflexivity | constructor]).
  assert (Htrans : forall a b c, I a b -> I b c -> I a c).
  { intros a b c (e1 & H1 & F1) (e2 & H2 & F2). exists (e2 ++ e1).
    split; [rewrite H2, H1, app_assoc; reflexivity | apply Forall_app; split; assumption]. }
  assert (Hemit : forall e s, archive_event e -> I s (emit e s)).
  { intros e s He. exists [e]. split; [reflexivity | repeat constructor; exact He]. }
  induction fuel as [|fuel IH]; intros u d st o st' H; [discriminate H|].
  rewrite crawl_page_S in H.
  destruct (urljoin _ u) as [url|]; [|injection H as _ <-; apply Hrefl].
  destruct (bool_decide _); [injection H as _ <-; apply Hemit; exact Logic.I|].
  cbv zeta in H.
  assert (E2 : I st (requests_get net url (log (Crawling url) (add_visited url st))).2).
  { exists [HttpGet url USER_AGENT; Log (Crawling url)].
    split; [reflexivity | repeat constructor]. }
  destruct (net (requests st) url) as [code text|e].
  - destruct (negb _).
    + injection H as _ <-. eapply Htrans; [exact E2 | apply Hemit; exact Logic.I].
    + match type of H with context [save_page ?t ?n ?o ?ti ?so ?s] =>
        destruct (save_page_summary ti so s) as (ev3 & T3 & F3 & _);
        set (saved := save_page t n o ti so s) in * end.
      assert (E3 : I st saved.2) by (eapply Htrans; [exact E2 | exists ev3; split; assumption]).
      destruct (saved.1) as [folder|];
        [|injection H as _ <-; eapply Htrans; [exact E3 | apply Hemit; exact Logic.I]].
      destruct (crawl_links _ _ _ _ _) as [[[e|] st4]|] eqn:EL; [| |discriminate];
        pose proof (crawl_links_keeps I _ _ Hrefl Htrans IH _ _ _ _ _ EL) as E4;
        injection H as _ <-.
      * eapply Htrans; [exact E3|]. eapply Htrans; [exact E4 | apply Hemit; exact Logic.I].
      * eapply Htrans; [exact E3 | exact E4].
  - injection H as _ <-. eapply Htrans; [exact E2 | apply Hemit; exact Logic.I].
Qed.

End CrawlInvariants.

Section CrawlTheorems.

Variable tbl : N -> bool.
Variable net : nat -> list N -> reply.
Variable parser : list N -> list node.
Variable urljoin : list N -> list N -> option (list N).
Variable os : list event -> event -> bool.

Local Abbreviation crawl := (crawl_page tbl net parser urljoin os).

(** X12: Whatever the web answers, every request of a crawl carries the fixed
    user agent, every document is written to a file named [page.html] and
    every image to a file named [img_...]. *)
Theorem X12_archive_layout fuel u d st o st' :
  crawl fuel u d st = Some (o, st') ->
  exists evs,
    trace st' = evs ++ trace st /\
    (forall url ua, In (HttpGet url ua) evs -> ua = USER_AGENT) /\
    (forall p soup, In (WriteFile p (HtmlOf soup)) evs -> split_last 47 p = py"page.html") /\
    (forall p b, In (WriteFile p (BytesOf b)) evs ->
       startswith (py"img_") (split_last 47 p) = true).
Proof.
  intros H.
  destruct (crawl_page_archive_events tbl net parser urljoin os fuel u d st o st' H)
    as (evs & Htr & HF).
  exists evs. split; [exact Htr|].
  rewrite Forall_forall in HF.
  repeat split; intros; match goal with Hin : In ?e evs |- _ =>
    exact (HF e (proj2 (list_elem_of_In _ _) Hin)) end.
Qed.

Lemma crawled_once_emit e st :
  crawled [e] = [] -> crawled_once st -> crawled_once (emit e st).
Proof.
  intros He [H1 H2]. unfold crawled_once. cbn [trace emit visited].
  change (e :: trace st) with ([e] ++ trace st). rewrite crawled_app, He. split; assumption.
Qed.

Lemma crawled_once_start url st :
  url ∉ visited st -> crawled_once st ->
  crawled_once (requests_get net url (log (Crawling url) (add_visited url st))).2.
Proof.
  intros Hv [H1 H2]. unfold crawled_once.
  cbn [requests_get snd trace visited log emit add_visited].
  change (crawled (HttpGet url USER_AGENT :: Log (Crawling url) :: trace st))
    with (url :: crawled (trace st)).
  split.
  - apply NoDup_cons. split; [|exact H1].
    intros Hin. apply Hv, H2. apply list_elem_of_In. exact Hin.
  - intros u [<-|Hu]; [set_solver | apply elem_of_union_r, H2, Hu].
Qed.

Lemma crawled_once_save_page title soup st :
  crawled_once st -> crawled_once (save_page tbl net os title soup st).2.
Proof.
  intros [H1 H2].
  destruct (save_page_summary tbl net os title soup st) as (evs & Htr & _ & Hc & _ & Hv).
  unfold crawled_once. rewrite Htr, crawled_app, Hc, Hv. split; assumption.
Qed.

(** X13: A crawler never crawls a URL twice: if the "Crawling page" lines so
    far name pairwise distinct URLs, all of them in the visited set, this
    still holds after any call. *)
Theorem X13_each_url_crawled_once fuel : forall u d st o st',
  crawled_once st ->
  crawl fuel u d st = Some (o, st') ->
  crawled_once st'.
Proof.
  induction fuel as [|fuel IH]; intros u d st o st' Hinv H; [discriminate H|].
  rewrite crawl_page_S in H.
  destruct (urljoin _ u) as [url|]; [|injection H as _ <-; exact Hinv].
  destruct (bool_decide (url ∈ visited st)) eqn:Hvis.
  { injection H as _ <-. apply crawled_once_emit; [reflexivity | exact Hinv]. }
  apply bool_decide_eq_false in Hvis. cbv zeta in H.
  pose proof (crawled_once_start url st Hvis Hinv) as E2.
  destruct (net (requests st) url) as [code text|e].
  - destruct (negb _).
    + injection H as _ <-. apply crawled_once_emit; [reflexivity | exact E2].
    + match type of H with context [save_page ?t ?n ?o ?ti ?so ?s] =>
        pose proof (crawled_once_save_page ti so s E2) as E3;
        set (saved := save_page t n o ti so s) in * end.
      destruct (saved.1) as [folder|];
        [|injection H as _ <-; apply crawled_once_emit; [reflexivity | exact E3]].
      assert (HL : forall links count st3 e st4,
                crawled_once st3 ->
                crawl_links (crawl fuel) links count d st3 = Some (e, st4) ->
                crawled_once st4).
      { induction links as [|href rest IHl]; intros count st3 e st4 H3 HE.
        - injection HE as _ <-. exact H3.
        - rewrite crawl_links_cons in HE.
          destruct (crawlable href); [|eapply IHl; eauto].
          destruct (SUBLINK_LIMIT <=? count)%nat; [injection HE as _ <-; exact H3|].
          destruct (crawl fuel href (d + 1)%nat st3) as [[[r|ex] s1]|] eqn:E; [| |discriminate].
          + eapply IHl; [|exact HE]. eapply IH; [exact H3 | exact E].
          + injection HE as _ <-. eapply IH; [exact H3 | exact E]. }
      destruct (crawl_links _ _ _ _ _) as [[[e|] st4]|] eqn:EL; [| |discriminate];
        injection H as _ <-.
      * apply crawled_once_emit; [reflexivity|]. eapply HL; [exact E3 | exact EL].
      * eapply HL; [exact E3 | exact EL].
  - injection H as _ <-. apply crawled_once_emit; [reflexivity | exact E2].
Qed.

Lemma crawled_emit e st :
  crawled [e] = [] -> crawled (trace (emit e st)) = crawled (trace st).
Proof.
  intros He. cbn [trace emit]. change (e :: trace st) with ([e] ++ trace st).
  rewrite crawled_app, He. reflexivity.
Qed.

Lemma crawled_start url st :
  crawled (trace (requests_get net url (log (Crawling url) (add_visited url st))).2)
  = url :: crawled (trace st).
Proof. reflexivity. Qed.

(** X14: A call whose nesting stays within [fuel] levels crawls at most
    [1 + 5 + ... + 5^(fuel-1)] pages: only the fan-out per page bounds the
    volume. *)
Theorem X14_pages_within_budget fuel : forall u d st o st',
  crawl fuel u d st = Some (o, st') ->
  (length (crawled (trace st')) <= length (crawled (trace st)) + page_budget fuel)%nat.
Proof.
  induction fuel as [|fuel IH]; intros u d st o st' H; [discriminate H|].
  rewrite crawl_page_S in H.
  destruct (urljoin _ u) as [url|]; [|injection H as _ <-; lia].
  destruct (bool_decide _).
  { injection H as _ <-. unfold log. rewrite crawled_emit by reflexivity. lia. }
  cbv zeta in H. cbn [page_budget].
  destruct (net (requests st) url) as [code text|e].
  - destruct (negb _).
    { injection H as _ <-. unfold log at 1. rewrite crawled_emit by reflexivity.
      change (crawled (trace _)) with (url :: crawled (trace st)) at 1. cbn [length]. lia. }
    match type of H with context [save_page ?t ?n ?o ?ti ?so ?s] =>
      destruct (save_page_summary t n o ti so s) as (evs & Htr & _ & Hc & _);
      set (saved := save_page t n o ti so s) in * end.
    assert (H3 : length (crawled (trace saved.2)) = S (length (crawled (trace st)))).
    { rewrite Htr, crawled_app, Hc, crawled_start. reflexivity. }
    destruct (saved.1) as [folder|];
      [|injection H as _ <-; unfold log; rewrite crawled_emit by reflexivity; lia].
    assert (HL : forall links count st3 e st4,
              crawl_links (crawl fuel) links count d st3 = Some (e, st4) ->
              (length (crawled (trace st4))
               <= length (crawled (trace st3)) + (SUBLINK_LIMIT - count) * page_budget fuel)%nat).
    { induction links as [|href rest IHl]; intros count st3 e st4 HE.
      - injection HE as _ <-. apply Nat.le_add_r.
      - rewrite crawl_links_cons in HE.
        destruct (crawlable href); [|eapply IHl; eauto].
        destruct (Nat.leb_spec SUBLINK_LIMIT count) as [Hge|Hlt];
          [injection HE as _ <-; apply Nat.le_add_r|].
        replace (SUBLINK_LIMIT - count)%nat with (S (SUBLINK_LIMIT - S count)) by lia.
        rewrite Nat.mul_succ_l.
        destruct (crawl fuel href (d + 1)%nat st3) as [[[r|ex] s1]|] eqn:E; [| |discriminate].
        + apply IH in E. apply IHl in HE.
          revert E HE. generalize ((SUBLINK_LIMIT - S count) * page_budget fuel)%nat.
          intros. lia.
        + injection HE as _ <-. apply IH in E.
          revert E. generalize ((SUBLINK_LIMIT - S count) * page_budget fuel)%nat.
          intros. lia. }
    destruct (crawl_links _ _ _ _ _) as [[[e|] st4]|] eqn:EL; [| |discriminate];
      injection H as _ <-; apply HL in EL; rewrite Nat.sub_0_r in EL;
      revert EL; generalize (SUBLINK_LIMIT * page_budget fuel)%nat; intros b EL.
    + unfold log. rewrite crawled_emit by reflexivity. lia.
    + lia.
  - injection H as _ <-. unfold log at 1. rewrite crawled_emit by reflexivity.
    change (crawled (trace _)) with (url :: crawled (trace st)) at 1. cbn [length]. lia.
Qed.

(** X15: A folder is returned only for a page that was fetched with status 200:
    the folder is then the one named after the last segment of the URL, and
    the cleaned document of that page has been written to its [page.html]
    during the call. *)
Theorem X15_returned_folder_holds_page fuel u d st folder st' :
  crawl fuel u d st = Some (Returns (Some folder), st') ->
  exists url text evs,
    urljoin (py"https://en.wikipedia.org/") u = Some url /\
    (url ∉ visited st) /\
    net (requests st) url = Response 200 text /\
    folder = os_path_join (base_dir st) (safe_folder_name tbl (split_last 47 url)) /\
    trace st' = evs ++ trace st /\
    In (WriteFile (os_path_join folder (py"page.html")) (HtmlOf (clean_html (parser text)))) evs.
Proof.
  intros H. destruct fuel as [|fuel]; [discriminate H|].
  rewrite crawl_page_S in H.
  destruct (urljoin _ u) as [url|]; [|discriminate H].
  destruct (bool_decide (url ∈ visited st)) eqn:Hvis; [discriminate H|].
  apply bool_decide_eq_false in Hvis. cbv zeta in H.
  destruct (net (requests st) url) as [code text|e] eqn:En; [|discriminate H].
  destruct (Z.eqb_spec code 200) as [->|Hne]; [|discriminate H].
  cbn [negb] in H.
  match type of H with context [save_page ?t ?n ?o ?ti ?so ?s] =>
    destruct (save_page_summary t n o ti so s) as (evs & Htr & _ & _ & Hin & _);
    set (saved := save_page t n o ti so s) in * end.
  destruct (saved.1) as [f|]; [|discriminate H].
  destruct (Hin f eq_refl) as [Hf Hpage].
  destruct (crawl_links _ _ _ _ _) as [[[e|] st4]|] eqn:EL; try discriminate H.
  injection H as <- <-.
  apply (crawl_links_extends _ _ (crawl_page_extends tbl net parser urljoin os fuel)) in EL.
  destruct EL as (_ & _ & _ & ev4 & H4).
  exists url, text, (ev4 ++ evs ++ [HttpGet url USER_AGENT; Log (Crawling url)]).
  repeat split; auto.
  - rewrite H4, Htr. rewrite <- !app_assoc. reflexivity.
  - apply in_or_app. right. apply in_or_app. left. exact Hpage.
Qed.

End CrawlTheorems.

Lemma X12_archive_layout_witness :
  exists evs,
    trace seed_run_state = evs ++ trace (new_crawler BASE_ARCHIVE) /\
    (forall url ua, In (HttpGet url ua) evs -> ua = USER_AGENT) /\
    (forall p soup, In (WriteFile p (HtmlOf soup)) evs -> split_last 47 p = py"page.html") /\
    (forall p b, In (WriteFile p (BytesOf b)) evs ->
       startswith (py"img_") (split_last 47 p) = true).
Proof.
  apply (X12_archive_layout (fun _ => false) demo_net demo_parser demo_urljoin demo_os
           2 (py"/wiki/Seed") 0 (new_crawler BASE_ARCHIVE)
           (Returns (Some (py"wiki_archive/Seed"))) seed_run_state).
  vm_compute. reflexivity.
Defined.

Lemma X13_each_url_crawled_once_witness : crawled_once seed_run_state.
Proof.
  apply (X13_each_url_crawled_once (fun _ => false) demo_net demo_parser demo_urljoin demo_os
           2 (py"/wiki/Seed") 0 (new_crawler BASE_ARCHIVE)
           (Returns (Some (py"wiki_archive/Seed"))) seed_run_state).
  - split; [constructor | intros u []].
  - vm_compute. reflexivity.
Defined.

Lemma X14_pages_within_budget_witness :
  (length (crawled (trace seed_run_state)) <= 0 + page_budget 2)%nat.
Proof.
  apply (X14_pages_within_budget (fun _ => false) demo_net demo_parser demo_urljoin demo_os
           2 (py"/wiki/Seed") 0 (new_crawler BASE_ARCHIVE)
           (Returns (Some (py"wiki_archive/Seed"))) seed_run_state).
  vm_compute. reflexivity.
Defined.

Lemma X15_returned_folder_holds_page_witness :
  exists url text evs,
    demo_urljoin (py"https://en.wikipedia.org/") (py"/wiki/Seed") = Some url /\
    (url ∉ visited (new_crawler BASE_ARCHIVE)) /\
    demo_net (requests (new_crawler BASE_ARCHIVE)) url = Response 200 text /\
    py"wiki_archive/Seed"
      = os_path_join (base_dir (new_crawler BASE_ARCHIVE))
          (safe_folder_name (fun _ => false) (split_last 47 url)) /\
    trace seed_run_state = evs ++ trace (new_crawler BASE_ARCHIVE) /\
    In (WriteFile (os_path_join (py"wiki_archive/Seed") (py"page.html"))
          (HtmlOf (clean_html (demo_parser text)))) evs.
Proof.
  apply (X15_returned_folder_holds_page (fun _ => false) demo_net demo_parser demo_urljoin demo_os
           2 (py"/wiki/Seed") 0 (new_crawler BASE_ARCHIVE) (py"wiki_archive/Seed") seed_run_state).
  vm_compute. reflexivity.
Defined.

(** ** Which links are followed, and how deep *)



(** The page with the navigation box has three links that qualify, the
    first two inside the box; the crawl of that page asks for the page and
    for the third link only. *)
Example nav_scenario :
  List.filter crawlable (find_all_a_href nav_page)
    = [py"/wiki/N1"; py"/wiki/N2"; py"/wiki/A"] /\
  List.filter crawlable (find_all_a_href (clean_html nav_page)) = [py"/wiki/A"] /\
  match demo_crawl 2 (py"/wiki/Nav") 0 (new_crawler BASE_ARCHIVE) with
  | Some (Returns (Some folder), st) =>
      folder = py"wiki_archive/Nav" /\
      fetched st = [py"https://en.wikipedia.org/wiki/Nav"; py"https://en.wikipedia.org/wiki/A"]
  | _ => False
  end.
Proof. vm_compute. repeat split. Qed.

(** A page whose title is over the limit on file names is fetched but not
    saved: [os.makedirs] raises, the [except] of [crawl_page] logs the
    error, and the call returns [None]. *)
Example long_title_scenario :
  match demo_crawl 2 long_title_url 0 (new_crawler BASE_ARCHIVE) with
  | Some (Returns None, st) =>
      written st = [] /\
      match trace st with
      | Log (CrawlError _ OSError) :: HttpGet _ _ :: Log (Crawling _) :: _ => True
      | _ => False
      end
  | _ => False
  end.
Proof. vm_compute. repeat split. Qed.

(** C2, as stated, fails: were the links recursed into the first five links
    of the fetched page whose [href] starts with ["/wiki/"] and has no
    [":"], the crawl of the page with the navigation box would go through
    its three such links.  It goes through the third only: [clean_html] has
    removed the box, and the two links in it, before the links are
    scanned. *)
Lemma C2_counterexample :
  ~ (forall tbl net parser urljoin os fuel u url d st text,
       urljoin (py"https://en.wikipedia.org/") u = Some url ->
       url ∉ visited st ->
       net (requests st) url = Response 200 text ->
       let page := parser text in
       let targets := take SUBLINK_LIMIT (List.filter crawlable (find_all_a_href page)) in
       let saved := save_page tbl net os (split_last 47 url) (clean_html page)
                      (requests_get net url (log (Crawling url) (add_visited url st))).2 in
       crawl_page tbl net parser urljoin os (S fuel) u d st =
         match crawl_each (crawl_page tbl net parser urljoin os fuel) targets d saved.2 with
         | None => None
         | Some (Some e, st4) => Some (Returns None, log (CrawlError url e) st4)
         | Some (None, st4) => Some (Returns saved.1, st4)
         end).
Proof.
  intros H.
  specialize (H (fun _ => false) demo_net demo_parser demo_urljoin demo_os 1%nat
                (py"/wiki/Nav") (py"https://en.wikipedia.org/wiki/Nav") 0%nat
                (new_crawler BASE_ARCHIVE) (py"https://en.wikipedia.org/wiki/Nav")
                eq_refl (not_elem_of_empty _) eq_refl).
  cbv zeta in H.
  apply (f_equal (fun r : option (outcome * crawler) =>
                    match r with Some (_, st) => requests st | None => 0%nat end)) in H.
  vm_compute in H. discriminate H.
Qed.



(** ** The depth argument *)

Lemma has_infix_false_no_bracket s :
  ~ In 91 s -> has_infix (py"//[") s = false.
Proof.
  induction s as [|a s IH]; intros H; [reflexivity|].
  cbn [has_infix]. rewrite IH by (intros Hin; apply H; right; exact Hin).
  rewrite orb_false_r.
  destruct (startswith (py"//[") (a :: s)) eqn:E; [exfalso | reflexivity].
  apply startswith_spec in E as [r E]. apply H. rewrite E.
  right. right. left. reflexivity.
Qed.

(** The links and the URLs of the chain: [/wiki/x...x/a] with [k] times
    ['x']. *)
Lemma chain_href_chars c k :
  In c (py"/wiki/" ++ repeat 120 k ++ py"/a") -> c <> 91 /\ c <> 58.
Proof.
  intros H. apply in_app_or in H as [H|H].
  - vm_compute in H.
    repeat (destruct H as [<-|H]; [split; discriminate|]). destruct H.
  - apply in_app_or in H as [H|H].
    + apply repeat_spec in H. subst c. split; discriminate.
    + vm_compute in H.
      repeat (destruct H as [<-|H]; [split; discriminate|]). destruct H.
Qed.

Lemma chain_urljoin k :
  demo_urljoin (py"https://en.wikipedia.org/") (py"/wiki/" ++ repeat 120 k ++ py"/a")
  = Some (py"https://en.wikipedia.org" ++ py"/wiki/" ++ repeat 120 k ++ py"/a").
Proof.
  unfold demo_urljoin. rewrite has_infix_false_no_bracket; [reflexivity|].
  intros H. apply chain_href_chars in H. destruct H as [H _]. apply H. reflexivity.
Qed.

Lemma chain_crawlable k : crawlable (py"/wiki/" ++ repeat 120 k ++ py"/a") = true.
Proof.
  apply crawlable_spec. split; [eexists; reflexivity|].
  intros H. apply chain_href_chars in H. destruct H as [_ H]. apply H. reflexivity.
Qed.

Lemma chain_title k :
  split_last 47 (py"https://en.wikipedia.org" ++ py"/wiki/" ++ repeat 120 k ++ py"/a") = py"a".
Proof.
  change (py"/a") with (47 :: py"a"). rewrite !app_assoc.
  apply split_last_sep. intros H. vm_compute in H. intuition discriminate.
Qed.

Lemma chain_page_links k :
  find_all_a_href
    (clean_html
       (chain_parser (py"https://en.wikipedia.org" ++ py"/wiki/" ++ repeat 120 k ++ py"/a")))
  = [py"/wiki/" ++ repeat 120 (S k) ++ py"/a"].
Proof.
  rewrite clean_html_without_boilerplate by reflexivity.
  unfold chain_parser, a_tag, find_all_a_href.
  cbn [descendants flat_map descendants_of app omap list_omap].
  change (str_eqb (py"a") (py"a")) with true. cbv iota.
  rewrite lookup_singleton_eq. reflexivity.
Qed.

Lemma chain_page_images text :
  find_all_img_src (clean_html (chain_parser text)) = [].
Proof.
  rewrite clean_html_without_boilerplate by reflexivity. reflexivity.
Qed.

(** On the file system of the examples a page titled ["a"] without images
    is saved by the four steps of [save_page]. *)
Lemma chain_save_page net soup st :
  base_dir st = BASE_ARCHIVE -> find_all_img_src soup = [] ->
  save_page (fun _ => false) net demo_os (py"a") soup st =
    (Some (py"wiki_archive/a"),
     emit (Makedirs (py"wiki_archive/a/images"))
       (log (SavedHtml (py"a"))
          (emit (WriteFile (py"wiki_archive/a/page.html") (HtmlOf soup))
             (emit (Makedirs (py"wiki_archive/a")) st)))).
Proof.
  intros Hb Hi. unfold save_page. rewrite Hb, Hi. reflexivity.
Qed.

(** Under an interpreter with room for [limit] nested requests, a crawl
    that starts on the chain when [m] of them are left does not fit into
    [m] nested calls; with one more it returns, after [m + 1] pages. *)
Lemma chain_crawl_depth limit m : forall k d st,
  (requests st + m = limit)%nat ->
  base_dir st = BASE_ARCHIVE ->
  (forall v, v ∈ visited st -> (length v < 32 + k)%nat) ->
  chain_crawl limit m (py"/wiki/" ++ repeat 120 k ++ py"/a") d st = None /\
  exists r st',
    chain_crawl limit (S m) (py"/wiki/" ++ repeat 120 k ++ py"/a") d st
      = Some (Returns r, st') /\
    length (crawled (trace st')) = (S m + length (crawled (trace st)))%nat.
Proof.
  induction m as [|m IH]; intros k d st Hreq Hbase Hv.
  - split; [reflexivity|].
    unfold chain_crawl. rewrite crawl_page_S, chain_urljoin.
    set (url := py"https://en.wikipedia.org" ++ py"/wiki/" ++ repeat 120 k ++ py"/a").
    assert (Hlen : length url = (32 + k)%nat).
    { subst url. rewrite !length_app, repeat_length. simpl. lia. }
    rewrite bool_decide_eq_false_2 by (intros Hin; apply Hv in Hin; lia).
    cbv zeta. unfold chain_net at 1.
    replace (requests st <? limit)%nat with false by (symmetry; apply Nat.ltb_ge; lia).
    eexists _, _. split; [reflexivity|]. reflexivity.
  - assert (Hstep : forall fuel,
              chain_crawl limit (S fuel) (py"/wiki/" ++ repeat 120 k ++ py"/a") d st =
              let url := py"https://en.wikipedia.org" ++ py"/wiki/" ++ repeat 120 k ++ py"/a" in
              let st3 :=
                emit (Makedirs (py"wiki_archive/a/images"))
                  (log (SavedHtml (py"a"))
                     (emit (WriteFile (py"wiki_archive/a/page.html")
                              (HtmlOf (clean_html (chain_parser url))))
                        (emit (Makedirs (py"wiki_archive/a"))
                           (requests_get (chain_net limit) url
                              (log (Crawling url) (add_visited url st))).2))) in
              match chain_crawl limit fuel (py"/wiki/" ++ repeat 120 (S k) ++ py"/a")
                      (d + 1)%nat st3 with
              | None => None
              | Some (Raised e, st4) => Some (Returns None, log (CrawlError url e) st4)
              | Some (Returns _, st4) => Some (Returns (Some (py"wiki_archive/a")), st4)
              end).
    { intros fuel. unfold chain_crawl. rewrite crawl_page_S, chain_urljoin.
      set (url := py"https://en.wikipedia.org" ++ py"/wiki/" ++ repeat 120 k ++ py"/a").
      assert (Hlen : length url = (32 + k)%nat).
      { subst url. rewrite !length_app, repeat_length. simpl. lia. }
      rewrite bool_decide_eq_false_2 by (intros Hin; apply Hv in Hin; lia).
      cbv zeta. unfold chain_net at 1.
      replace (requests st <? limit)%nat with true by (symmetry; apply Nat.ltb_lt; lia).
      change (negb (200 =? 200)%Z) with false. cbv iota.
      subst url. rewrite chain_title.
      rewrite chain_save_page by (try exact Hbase; apply chain_page_images).
      cbn [fst snd]. rewrite chain_page_links.
      rewrite crawl_links_cons, chain_crawlable.
      change (SUBLINK_LIMIT <=? 0)%nat with false. cbv iota.
      destruct (crawl_page _ _ _ _ _ fuel _ _ _) as [[[r|e] st4]|]; reflexivity. }
    set (url := py"https://en.wikipedia.org" ++ py"/wiki/" ++ repeat 120 k ++ py"/a") in *.
    assert (Hlen : length url = (32 + k)%nat).
    { subst url. rewrite !length_app, repeat_length. simpl. lia. }
    cbv zeta in Hstep.
    match type of Hstep with context [chain_crawl limit _ _ (d + 1)%nat ?s] =>
      set (st3 := s) in * end.
    destruct (IH (S k) (d + 1)%nat st3) as (Hnone & r & st' & Hsome & Hcount).
    + subst st3. cbn [requests requests_get emit log add_visited snd]. lia.
    + subst st3. cbn [base_dir requests_get emit log add_visited snd]. exact Hbase.
    + intros v Hin. subst st3. cbn [visited requests_get emit log add_visited snd] in Hin.
      apply elem_of_union in Hin as [Hin|Hin].
      * apply elem_of_singleton in Hin. subst v. rewrite Hlen. lia.
      * apply Hv in Hin. lia.
    + split.
      * rewrite Hstep, Hnone. reflexivity.
      * rewrite Hstep, Hsome. eexists _, _. split; [reflexivity|].
        assert (Hc3 : length (crawled (trace st3)) = S (length (crawled (trace st))))
          by (subst st3; reflexivity).
        rewrite Hcount, Hc3. lia.
Qed.

(** C9: the depth argument has no effect: two calls that differ only in
    it give the same result and the same state.  And the code puts no bound
    on the depth of the recursion: whatever the number [n] of requests that
    the interpreter has room for, one inside the other, the crawl of the
    chain from its first page does not fit into [n] nested calls; with one
    more it returns, having gone through [n + 1] pages, each of them inside
    the call for the page before. *)
Theorem C9_depth_has_no_effect :
  (forall tbl net parser urljoin os fuel u d1 d2 st,
     crawl_page tbl net parser urljoin os fuel u d1 st
     = crawl_page tbl net parser urljoin os fuel u d2 st) /\
  (forall n d,
     chain_crawl n n chain_start d (new_crawler BASE_ARCHIVE) = None /\
     exists r st',
       chain_crawl n (S n) chain_start d (new_crawler BASE_ARCHIVE) = Some (Returns r, st') /\
       length (crawled (trace st')) = S n).
Proof.
  split.
  - intros. apply crawl_page_depth.
  - intros n d.
    destruct (chain_crawl_depth n n 1 d (new_crawler BASE_ARCHIVE))
      as (Hnone & r & st' & Hsome & Hcount).
    + reflexivity.
    + reflexivity.
    + intros v Hin. simpl in Hin. apply not_elem_of_empty in Hin. destruct Hin.
    + split; [exact Hnone|]. exists r, st'. split; [exact Hsome|].
      rewrite Hcount. simpl. lia.
Qed.

(** * Properties of the viewer application *)

(** ** [search] and [load_page] *)

Lemma search_rows w typed a r :
  In r (result_frame (search w typed a).1) -> row_buttons r = row_buttons_of_search.
Proof.
  unfold search. destruct (os_listdir w BASE_ARCHIVE) as [names|]; cbn [fst result_frame with_results].
  - intros H. apply in_map_iff in H as (f & <- & _). reflexivity.
  - intros [].
Qed.

(** X16: each of the three buttons of a search result ("Default", "*text",
    "*image") loads the page in the same way: when [page.html] can be read,
    the viewer shows its raw content and no image.  The modes that the
    buttons pass on are not the ones [load_page] tests for. *)
Theorem X16_row_buttons_show_raw_page w typed a w' a' r text mode content :
  In r (result_frame (search w typed a).1) ->
  In (text, mode) (row_buttons r) ->
  os_path_exists w' (os_path_join (row_folder r) (py"page.html")) = true ->
  read_file w' (os_path_join (row_folder r) (py"page.html")) = Some content ->
  (load_page w' (row_folder r) mode a').2 = true /\
  text_widget (app_viewer (load_page w' (row_folder r) mode a').1) = content /\
  image_labels (app_viewer (load_page w' (row_folder r) mode a').1) = [].
Proof.
  intros Hr Hb He Hread. rewrite (search_rows _ _ _ _ Hr) in Hb.
  assert (Hm : str_eqb mode (py"*text") = false /\ str_eqb mode (py"*image") = false).
  { destruct Hb as [E|[E|[E|[]]]]; injection E as _ <-; split; reflexivity. }
  destruct Hm as [Hm1 Hm2].
  unfold load_page. cbv zeta. rewrite He. cbn [negb]. rewrite Hread, Hm1, Hm2.
  repeat split.
Qed.

Lemma X16_row_buttons_show_raw_page_witness :
  text_widget (app_viewer (load_page demo_outside (py"wiki_archive/seed") (py"text") new_app).1)
  = py"<p>Seed</p>".
Proof.
  destruct (X16_row_buttons_show_raw_page demo_outside (py"e") new_app demo_outside new_app
              (Row (py"seed") (py"wiki_archive/seed") row_buttons_of_search)
              (py"*text") (py"text") (py"<p>Seed</p>")) as (_ & H & _).
  - vm_compute. left. reflexivity.
  - right. left. reflexivity.
  - reflexivity.
  - reflexivity.
  - exact H.
Defined.

(** X17: when [page.html] is missing, or cannot be read, [load_page] only
    empties the viewer: the statistics, the progress bar, the search results
    and the crawler are as before. *)
Theorem X17_load_page_without_page w folder mode a :
  os_path_exists w (os_path_join folder (py"page.html")) = false \/
  read_file w (os_path_join folder (py"page.html")) = None ->
  let a' := (load_page w folder mode a).1 in
  text_widget (app_viewer a') = [] /\ image_labels (app_viewer a') = [] /\
  app_stats a' = app_stats a /\ progress_value a' = progress_value a /\
  result_frame a' = result_frame a /\ app_crawler a' = app_crawler a.
Proof.
  intros H. unfold load_page. cbv zeta.
  destruct (os_path_exists w _) eqn:E; cbn [negb]; [|repeat split].
  destruct H as [H|H]; [discriminate H|]. rewrite H. repeat split.
Qed.

Lemma X17_load_page_without_page_witness :
  app_stats (load_page demo_outside (py"wiki_archive/a_b") (py"default") new_app).1
  = app_stats new_app.
Proof.
  destruct (X17_load_page_without_page demo_outside (py"wiki_archive/a_b") (py"default") new_app)
    as (_ & _ & H & _).
  - left. reflexivity.
  - exact H.
Defined.

(** X18: viewing a page counts as a page archived: when [page.html] is
    read (in a mode other than ["*image"]), [load_page] raises the page
    count by one, sets the current page to the last segment of the folder and
    the progress bar to 100, while the crawler has done nothing and the image
    count is unchanged. *)
Theorem X18_load_page_counts_a_page w folder mode content a :
  os_path_exists w (os_path_join folder (py"page.html")) = true ->
  read_file w (os_path_join folder (py"page.html")) = Some content ->
  mode <> py"*image" ->
  let a' := (load_page w folder mode a).1 in
  pages_archived (app_stats a') = S (pages_archived (app_stats a)) /\
  current_page (app_stats a') = split_last 47 folder /\
  images_downloaded (app_stats a') = images_downloaded (app_stats a) /\
  progress_value a' = 100%nat /\
  app_crawler a' = app_crawler a.
Proof.
  intros He Hread Hmode. unfold load_page. cbv zeta. rewrite He. cbn [negb]. rewrite Hread.
  assert (Hm : str_eqb mode (py"*image") = false)
    by (unfold str_eqb; apply bool_decide_eq_false; exact Hmode).
  rewrite Hm.
  destruct (str_eqb mode (py"*text")); cbn; repeat split; lia.
Qed.

Lemma X18_load_page_counts_a_page_witness :
  pages_archived (app_stats (load_page demo_outside (py"wiki_archive/seed") (py"default") new_app).1)
  = 1%nat.
Proof.
  destruct (X18_load_page_counts_a_page demo_outside (py"wiki_archive/seed") (py"default")
              (py"<p>Seed</p>") new_app) as (H & _).
  - reflexivity.
  - reflexivity.
  - discriminate.
  - exact H.
Defined.

(** X19: [search] makes one row per entry of the archive directory that is
    a directory and whose name contains the query, both in lower case; the
    rows are in the order of the listing, each labelled with the name of its
    folder; a failing listing leaves no row. *)
Theorem X19_search_rows w typed a names :
  os_listdir w BASE_ARCHIVE = Some names ->
  Forall (fun name => ~ In 47 name) names ->
  result_frame (search w typed a).1 =
    map (fun name => Row name (os_path_join BASE_ARCHIVE name) row_buttons_of_search)
      (List.filter
         (fun name => os_path_isdir w (os_path_join BASE_ARCHIVE name)
                      && has_infix (str_lower w typed) (str_lower w name))
         names).
Proof.
  intros Hl Hn. unfold search. rewrite Hl. cbn [fst result_frame with_results].
  rewrite map_map. apply map_ext_in. intros name Hin.
  apply filter_In in Hin as [Hin _].
  rewrite Forall_forall in Hn.
  rewrite basename_join by (apply Hn, list_elem_of_In; exact Hin). reflexivity.
Qed.

Lemma X19_search_rows_witness :
  map row_folder (result_frame (search demo_outside (py"e") new_app).1) = [py"wiki_archive/seed"].
Proof.
  rewrite (X19_search_rows demo_outside (py"e") new_app [py"seed"; py"notes.txt"; py"a_b"]).
  - vm_compute. reflexivity.
  - reflexivity.
  - repeat constructor; intros H; apply contains_spec in H; vm_compute in H; discriminate H.
Defined.

(** ** [run_auto_archive] and sequences of events *)

Lemma update_stats_fields page a :
  let a' := with_progress 100 (update_stats page 0 a) in
  app_crawler a' = app_crawler a /\
  pages_archived (app_stats a') = S (pages_archived (app_stats a)) /\
  images_downloaded (app_stats a') = images_downloaded (app_stats a) /\
  console a' = console a /\ archive_thread a' = archive_thread a.
Proof. cbn. repeat split. lia. Qed.

Section AutoArchiveProperties.

Variable tbl : N -> bool.
Variable net : nat -> list N -> reply.
Variable parser : list N -> list node.
Variable urljoin : list N -> list N -> option (list N).
Variable os : list event -> event -> bool.

Local Abbreviation loop := (auto_archive_loop tbl net parser urljoin os).
Local Abbreviation run := (run_auto_archive tbl net parser urljoin os).
Local Abbreviation crawl := (crawl_page tbl net parser urljoin os).

Lemma auto_archive_loop_cons fuel reads k page rest a :
  loop fuel reads k (page :: rest) a =
    if negb (reads k) then Some (app_print AutoArchivePaused a, true)
    else
      match crawl fuel page 0 (app_crawler a) with
      | None => None
      | Some (Raised _, c) => Some (with_crawler c a, false)
      | Some (Returns folder, c) =>
          loop fuel reads (S k) rest
            match folder with
            | Some ((_ :: _) as f) =>
                with_progress 100 (update_stats (split_last 47 f) 0 (with_crawler c a))
            | _ => with_crawler c a
            end
      end.
Proof. reflexivity. Qed.

(** What the loop leaves alone, and the bounds on what it changes. *)
Lemma auto_archive_loop_effects fuel reads pages : forall k a a' ok,
  loop fuel reads k pages a = Some (a', ok) ->
  extends (app_crawler a) (app_crawler a') /\
  (pages_archived (app_stats a) <= pages_archived (app_stats a')
     <= pages_archived (app_stats a) + length pages)%nat /\
  images_downloaded (app_stats a') = images_downloaded (app_stats a) /\
  started_count (console a') = started_count (console a) /\
  archive_thread a' = archive_thread a.
Proof.
  induction pages as [|page rest IH]; intros k a a' ok H.
  - injection H as <- _. split; [apply extends_refl|]. repeat split; simpl; lia.
  - rewrite auto_archive_loop_cons in H.
    destruct (negb (reads k)).
    { injection H as <- _. split; [apply extends_refl|]. repeat split; simpl; lia. }
    destruct (crawl fuel page 0 (app_crawler a)) as [[[folder|e] c]|] eqn:E; [| |discriminate H].
    + pose proof (crawl_page_extends _ _ _ _ _ _ _ _ _ _ _ E) as Hc.
      apply IH in H. destruct H as (H1 & H2 & H3 & H4 & H5).
      destruct folder as [[|x f]|]; cbn in H1, H2, H3, H4, H5;
        (split; [eapply extends_trans; [exact Hc | exact H1]|]);
        repeat split; auto; simpl length; lia.
    + injection H as <- _. pose proof (crawl_page_extends _ _ _ _ _ _ _ _ _ _ _ E) as Hc.
      split; [exact Hc|]. repeat split; simpl; lia.
Qed.

(** X20: the check box is read only between the start pages.  When it is
    off at the first test nothing is crawled; when it is on, the crawl of the
    first start page is carried through, whatever is read later, and the
    crawler ends in a state that extends the one after that crawl. *)
Theorem X20_stop_only_between_start_pages fuel reads a :
  (reads 0%nat = false ->
   run fuel reads a = Some (app_print AutoArchiveFinished (app_print AutoArchivePaused a), true)) /\
  (reads 0%nat = true ->
   forall a' ok, run fuel reads a = Some (a', ok) ->
   exists o c,
     crawl fuel (py"/wiki/Mathematics") 0 (app_crawler a) = Some (o, c) /\
     extends c (app_crawler a')).
Proof.
  split; intros Hr.
  - unfold run_auto_archive, start_pages. rewrite auto_archive_loop_cons, Hr. reflexivity.
  - intros a' ok H. unfold run_auto_archive, start_pages in H.
    rewrite auto_archive_loop_cons, Hr in H. cbn [negb] in H.
    destruct (crawl fuel (py"/wiki/Mathematics") 0 (app_crawler a)) as [[[folder|e] c]|] eqn:E;
      [| |discriminate H].
    + exists (Returns folder), c. split; [reflexivity|].
      destruct (loop fuel reads 1 _ _) as [[a1 ok1]|] eqn:EL; [|discriminate H].
      apply auto_archive_loop_effects in EL as (H1 & _).
      assert (Ha : app_crawler a' = app_crawler a1)
        by (destruct ok1; injection H as <- _; reflexivity).
      rewrite Ha. destruct folder as [[|x f]|]; exact H1.
    + exists (Raised e), c. split; [reflexivity|].
      injection H as <- _. apply extends_refl.
Qed.

(** X21: a run of auto-archive makes at most three top-level crawls: the
    page count goes up by at most three, the image count is not changed, and
    the crawler only gains visited URLs and events. *)
Theorem X21_auto_archive_bounds fuel reads a a' ok :
  run fuel reads a = Some (a', ok) ->
  extends (app_crawler a) (app_crawler a') /\
  (pages_archived (app_stats a) <= pages_archived (app_stats a')
     <= pages_archived (app_stats a) + 3)%nat /\
  images_downloaded (app_stats a') = images_downloaded (app_stats a).
Proof.
  intros H. unfold run_auto_archive in H.
  destruct (loop fuel reads 0 start_pages a) as [[a1 ok1]|] eqn:EL; [|discriminate H].
  apply auto_archive_loop_effects in EL as (H1 & H2 & H3 & _).
  simpl length in H2.
  destruct ok1; injection H as <- _; (split; [exact H1|]); split; [exact H2 | exact H3 | exact H2 | exact H3].
Qed.

Lemma started_count_cons m l :
  started_count (m :: l)
  = ((match m with AutoArchiveStarted => 1 | _ => 0 end) + started_count l)%nat.
Proof. destruct m; reflexivity. Qed.

Ltac app_fields :=
  cbn [app_crawler auto_archive dark_mode archive_thread theme app_stats app_viewer
       result_frame progress_value console with_crawler with_stats with_viewer with_results
       with_progress with_theme app_print set_dark_mode set_auto_archive update_stats
       update_viewer_colors toggle_dark pages_archived current_page images_downloaded
       stats_label fst snd];
  rewrite ?started_count_cons, ?Nat.add_0_r.

Lemma gui_step_effects e a a' :
  gui_step tbl net parser urljoin os e a = Some a' ->
  images_downloaded (app_stats a') = images_downloaded (app_stats a) /\
  (archive_thread a = true -> archive_thread a' = true) /\
  (started_count (console a') <= started_count (console a) + 1)%nat /\
  (archive_thread a = true -> started_count (console a') = started_count (console a)) /\
  (archive_thread a' = false -> started_count (console a') = started_count (console a)).
Proof.
  assert (Hsame : forall b : wikiapp,
            images_downloaded (app_stats b) = images_downloaded (app_stats a) ->
            archive_thread b = archive_thread a ->
            started_count (console b) = started_count (console a) ->
            images_downloaded (app_stats b) = images_downloaded (app_stats a) /\
            (archive_thread a = true -> archive_thread b = true) /\
            (started_count (console b) <= started_count (console a) + 1)%nat /\
            (archive_thread a = true -> started_count (console b) = started_count (console a)) /\
            (archive_thread b = false -> started_count (console b) = started_count (console a))).
  { intros b H1 H2 H3. rewrite H1, H2, H3. repeat split; auto. lia. }
  destruct e as [| |w typed|w folder mode|fuel reads]; cbn [gui_step]; intros H.
  - injection H as <-. apply Hsame; app_fields; reflexivity.
  - injection H as <-. unfold toggle_auto_archive.
    cbn [auto_archive archive_thread set_auto_archive].
    destruct (negb (auto_archive a)); cbn [andb]; [|apply Hsame; reflexivity].
    destruct (archive_thread a) eqn:Ea; cbn [negb].
    + app_fields. rewrite Ea. repeat split; auto. lia.
    + app_fields. repeat split; auto; try lia; discriminate.
  - injection H as <-. unfold search.
    destruct (os_listdir w BASE_ARCHIVE); apply Hsame; app_fields; reflexivity.
  - injection H as <-. unfold load_page. cbv zeta.
    destruct (negb _); [apply Hsame; app_fields; reflexivity|].
    destruct (read_file w _); [|apply Hsame; app_fields; reflexivity].
    destruct (str_eqb mode (py"*text")); [apply Hsame; app_fields; auto|].
    destruct (str_eqb mode (py"*image")); [|apply Hsame; app_fields; auto].
    destruct (os_path_exists w _); [|apply Hsame; app_fields; auto].
    destruct (os_listdir w _); apply Hsame; app_fields; auto.
  - destruct (run fuel reads a) as [[a1 ok]|] eqn:E; [|discriminate H].
    injection H as <-. unfold run_auto_archive in E.
    destruct (loop fuel reads 0 start_pages a) as [[a2 ok2]|] eqn:EL; [|discriminate E].
    apply auto_archive_loop_effects in EL as (_ & _ & H3 & H4 & H5).
    destruct ok2; injection E as <- _; apply Hsame; app_fields; assumption.
Qed.

(** X22: no event of the application changes the image count: the
    "Images" figure of the statistics stays what it was, whatever is
    archived or viewed. *)
Theorem X22_image_count_never_changes events : forall a a',
  gui_run tbl net parser urljoin os events a = Some a' ->
  images_downloaded (app_stats a') = images_downloaded (app_stats a).
Proof.
  induction events as [|e rest IH]; intros a a' H.
  - injection H as <-. reflexivity.
  - cbn [gui_run] in H.
    destruct (gui_step tbl net parser urljoin os e a) as [a1|] eqn:E; [|discriminate H].
    apply gui_step_effects in E as (E1 & _). rewrite (IH _ _ H). exact E1.
Qed.

(** X23: the auto-archive thread is started at most once: once it has
    been started, no later click starts it again, also after the run has
    ended or was paused. *)
Theorem X23_auto_archive_starts_once events : forall a a',
  (archive_thread a = false -> started_count (console a) = 0%nat) ->
  (started_count (console a) <= 1)%nat ->
  gui_run tbl net parser urljoin os events a = Some a' ->
  (started_count (console a') <= 1)%nat /\
  (archive_thread a = true -> started_count (console a') = started_count (console a)).
Proof.
  induction events as [|e rest IH]; intros a a' H0 H1 H.
  - injection H as <-. split; [exact H1 | reflexivity].
  - cbn [gui_run] in H.
    destruct (gui_step tbl net parser urljoin os e a) as [a1|] eqn:E; [|discriminate H].
    apply gui_step_effects in E as (_ & E2 & E3 & E4 & E5).
    assert (G0 : archive_thread a1 = false -> started_count (console a1) = 0%nat).
    { intros Hf. rewrite (E5 Hf). apply H0.
      destruct (archive_thread a); [rewrite E2 in Hf by reflexivity; discriminate Hf | reflexivity]. }
    assert (G1 : (started_count (console a1) <= 1)%nat).
    { destruct (archive_thread a) eqn:Ea; [rewrite E4 by reflexivity; exact H1|].
      rewrite H0 in E3 by reflexivity. exact E3. }
    destruct (IH a1 a' G0 G1 H) as [I1 I2]. split; [exact I1|].
    intros Ht. rewrite I2 by (apply E2; exact Ht). apply E4. exact Ht.
Qed.

End AutoArchiveProperties.

Lemma X20_stop_only_between_start_pages_witness :
  run_auto_archive (fun _ => false) demo_net demo_parser demo_urljoin demo_os 1 (fun _ => false) new_app
  = Some (app_print AutoArchiveFinished (app_print AutoArchivePaused new_app), true).
Proof.
  apply (X20_stop_only_between_start_pages (fun _ => false) demo_net demo_parser demo_urljoin demo_os
           1 (fun _ => false) new_app).
  reflexivity.
Defined.

Lemma X21_auto_archive_bounds_witness :
  (pages_archived (app_stats new_app) <= pages_archived (app_stats demo_archived)
     <= pages_archived (app_stats new_app) + 3)%nat.
Proof.
  apply (X21_auto_archive_bounds (fun _ => false) demo_net demo_parser demo_urljoin demo_os
           1 (fun _ => true) new_app demo_archived true).
  vm_compute. reflexivity.
Defined.

Lemma X22_image_count_never_changes_witness :
  images_downloaded (app_stats demo_archived) = 0%nat.
Proof.
  apply (X22_image_count_never_changes (fun _ => false) demo_net demo_parser demo_urljoin demo_os
           [ThreadRuns 1 (fun _ => true)] new_app demo_archived).
  vm_compute. reflexivity.
Defined.

Lemma X23_auto_archive_starts_once_witness :
  auto_archive demo_clicked = true /\ (started_count (console demo_clicked) <= 1)%nat.
Proof.
  split; [reflexivity|].
  apply (X23_auto_archive_starts_once (fun _ => false) demo_net demo_parser demo_urljoin demo_os
           [ClickAutoArchive; ClickAutoArchive; ClickAutoArchive] new_app demo_clicked).
  - reflexivity.
  - apply Nat.le_0_l.
  - vm_compute. reflexivity.
Defined.

Example auto_archive_full_run :
  pages_archived (app_stats demo_archived) = 3%nat /\
  current_page (app_stats demo_archived) = py"United_Kingdom" /\
  stats_label (app_stats demo_archived) = py"Pages: 3 | Current: United_Kingdom | Images: 0" /\
  fetched (app_crawler demo_archived)
    = [py"https://en.wikipedia.org/wiki/Mathematics";
       py"https://en.wikipedia.org/wiki/Chemical_substance";
       py"https://en.wikipedia.org/wiki/United_Kingdom"].
Proof. vm_compute. repeat split. Qed.



(** ** The visited set and the pages requested *)

Section VisitedAndCrawled.

Variable tbl : N -> bool.
Variable net : nat -> list N -> reply.
Variable parser : list N -> list node.
Variable urljoin : list N -> list N -> option (list N).
Variable os : list event -> event -> bool.

Local Abbreviation crawl := (crawl_page tbl net parser urljoin os).

Lemma visited_were_crawled_emit e st :
  visited_were_crawled st -> visited_were_crawled (emit e st).
Proof.
  intros H u Hu. cbn [trace emit visited] in *.
  change (e :: trace st) with ([e] ++ trace st). rewrite crawled_app.
  apply in_or_app. right. apply H. exact Hu.
Qed.

Lemma visited_were_crawled_start url st :
  visited_were_crawled st ->
  visited_were_crawled (requests_get net url (log (Crawling url) (add_visited url st))).2.
Proof.
  intros H u Hu.
  change (crawled (trace (requests_get net url (log (Crawling url) (add_visited url st))).2))
    with (url :: crawled (trace st)).
  cbn [requests_get snd visited log emit add_visited] in Hu.
  apply elem_of_union in Hu as [Hu|Hu].
  - apply elem_of_singleton in Hu. left. symmetry. exact Hu.
  - right. apply H. exact Hu.
Qed.

Lemma visited_were_crawled_save_page title soup st :
  visited_were_crawled st -> visited_were_crawled (save_page tbl net os title soup st).2.
Proof.
  intros H u Hu.
  destruct (save_page_summary tbl net os title soup st) as (evs & Htr & _ & Hc & _ & Hv).
  rewrite Htr, crawled_app, Hc. rewrite Hv in Hu. apply H. exact Hu.
Qed.

(** X25: the visited set holds only URLs for which the page request has
    been made (its "Crawling page" line is in the log): if this is so before
    a call, it is so after it, recursion included; a URL whose fetch failed
    stays visited all the same. *)
Theorem X25_visited_were_crawled fuel : forall u d st o st',
  visited_were_crawled st ->
  crawl fuel u d st = Some (o, st') ->
  visited_were_crawled st'.
Proof.
  induction fuel as [|fuel IH]; intros u d st o st' Hinv H; [discriminate H|].
  rewrite crawl_page_S in H.
  destruct (urljoin _ u) as [url|]; [|injection H as _ <-; exact Hinv].
  destruct (bool_decide (url ∈ visited st)).
  { injection H as _ <-. apply visited_were_crawled_emit. exact Hinv. }
  cbv zeta in H.
  pose proof (visited_were_crawled_start url st Hinv) as E2.
  destruct (net (requests st) url) as [code text|e].
  - destruct (negb _).
    + injection H as _ <-. apply visited_were_crawled_emit. exact E2.
    + match type of H with context [save_page ?t ?n ?o ?ti ?so ?s] =>
        pose proof (visited_were_crawled_save_page ti so s E2) as E3;
        set (saved := save_page t n o ti so s) in * end.
      destruct (saved.1) as [folder|];
        [|injection H as _ <-; apply visited_were_crawled_emit; exact E3].
      assert (HL : forall links count st3 e st4,
                visited_were_crawled st3 ->
                crawl_links (crawl fuel) links count d st3 = Some (e, st4) ->
                visited_were_crawled st4).
      { induction links as [|href rest IHl]; intros count st3 e st4 H3 HE.
        - injection HE as _ <-. exact H3.
        - rewrite crawl_links_cons in HE.
          destruct (crawlable href); [|eapply IHl; eauto].
          destruct (SUBLINK_LIMIT <=? count)%nat; [injection HE as _ <-; exact H3|].
          destruct (crawl fuel href (d + 1)%nat st3) as [[[r|ex] s1]|] eqn:E; [| |discriminate].
          + eapply IHl; [|exact HE]. eapply IH; [exact H3 | exact E].
          + injection HE as _ <-. eapply IH; [exact H3 | exact E]. }
      destruct (crawl_links _ _ _ _ _) as [[[e|] st4]|] eqn:EL; [| |discriminate];
        injection H as _ <-.
      * apply visited_were_crawled_emit. eapply HL; [exact E3 | exact EL].
      * eapply HL; [exact E3 | exact EL].
  - injection H as _ <-. apply visited_were_crawled_emit. exact E2.
Qed.

End VisitedAndCrawled.

Lemma X25_visited_were_crawled_witness : visited_were_crawled seed_run_state.
Proof.
  apply (X25_visited_were_crawled (fun _ => false) demo_net demo_parser demo_urljoin demo_os
           2 (py"/wiki/Seed") 0 (new_crawler BASE_ARCHIVE)
           (Returns (Some (py"wiki_archive/Seed"))) seed_run_state).
  - intros u Hu. apply not_elem_of_empty in Hu. destruct Hu.
  - vm_compute. reflexivity.
Defined.
